(** * notion-sync: the sync orchestrator and its record store

    A shallow embedding of [notion_sync/database.py] (the record store) and
    [notion_sync/sync.py] (the orchestrator), with the Notion client and the
    git wrapper reduced to the outcomes of the calls the orchestrator makes.

    - Python [str] is a sequence of code points: [pystr := list N].
    - a [datetime] is the moment its fields name and its UTC offset, absent
      for a zone-less value; comparing a zone-less with a zone-aware one
      raises, and so does reading back a stored zone-aware one.
    - the two SQLite tables are a [gmap] keyed by [notion_id] (the primary
      key) and a list (the append-only [sync_log]).
    - the [pages/] directory is a [gmap] from file name to file text.
    - an exception is the message [str(e)] it carries; a call that may raise
      returns a sum, [inl] for the exception and [inr] for the value. *)

From Stdlib Require Import ZArith NArith Ascii String List Lia Bool.
From stdpp Require Import base option list gmap.

Local Open Scope Z_scope.

(** ** Strings *)

Abbreviation pystr := (list N).

(** A string literal of the source. *)
Definition lit (s : string) : pystr := N_of_ascii <$> list_ascii_of_string s.
Global Arguments lit : simpl never.
Global Opaque lit.

(** [sep.join(parts)] *)
Fixpoint join (sep : pystr) (parts : list pystr) : pystr :=
  match parts with
  | [] => []
  | [p] => p
  | p :: rest => p ++ sep ++ join sep rest
  end.

(** [x or default] on strings: the empty string is falsy. *)
Definition str_or (x default : pystr) : pystr :=
  match x with
  | [] => default
  | _ => x
  end.

(** ** Data model *)

(** A [datetime]: [wall] is the moment its date and time fields name, in
    microseconds, and [utcoffset] its offset from UTC, in microseconds too,
    [None] for a zone-less value ([datetime.utcnow()]); a value parsed from a
    text that ends in [+00:00] has [Some 0]. *)
Record datetime := mkDatetime {
  wall : Z;
  utcoffset : option Z
}.

(** The [str] that [sqlite3] returns for a timestamp column without a
    declared type, as [MAX(sync_time)] is: the text [YYYY-MM-DD HH:MM:SS]
    that [CURRENT_TIMESTAMP] stored, held as the second it names. It is not a
    [datetime]. *)
Record TimestampText := mkTimestampText {
  text_seconds : Z
}.

(** database.py, [PageRecord]; in the table, the values as they were bound. *)
Record PageRecord := mkPageRecord {
  notion_id : pystr;
  title : pystr;
  parent_id : option pystr;
  content_hash : pystr;
  last_edited : datetime;
  last_synced : datetime;
  status : pystr
}.

(** One row of the [sync_log] table; [log_sync_time] is the second that the
    text of [CURRENT_TIMESTAMP] names. *)
Record SyncLogEntry := mkSyncLogEntry {
  log_sync_time : Z;
  log_pages_synced : nat;
  log_direction : pystr;
  log_status : pystr;
  log_message : pystr
}.

(** notion_client.py, [NotionPage] (the [properties] dict is not read by
    the orchestrator and is left out). *)
Record NotionPage := mkNotionPage {
  page_id : pystr;
  page_title : pystr;
  page_parent_id : option pystr;
  page_content : pystr;
  page_last_edited : datetime;
  page_url : pystr
}.

(** sync.py, [SyncResult] *)
Record SyncResult := mkSyncResult {
  success : bool;
  direction : pystr;
  pages_synced : nat;
  pages_skipped : nat;
  errors : list pystr;
  commit_hash : option pystr;
  timestamp : datetime
}.

(** The dict [{"synced": _, "skipped": _, "errors": _}] that
    [_pull_from_notion] builds and returns. *)
Record PullResult := mkPullResult {
  synced : nat;
  skipped : nat;
  pull_errors : list pystr
}.

(** A commit made by [commit_sync]: the hash it returns and the two values
    the orchestrator passes for the message. *)
Record Commit := mkCommit {
  commit_id : pystr;
  commit_pages_changed : nat;
  commit_direction : pystr
}.

(** Everything a run reads and writes: the two tables of [memory.db], the
    [pages/] directory, the local and the pushed git history (newest first)
    and the number of clock readings taken so far. *)
Record State := mkState {
  db_pages : gmap pystr PageRecord;
  db_sync_log : list SyncLogEntry;
  pages_dir : gmap pystr pystr;
  git_commits : list Commit;
  git_pushed : list Commit;
  ticks : nat
}.

(** How [get_database_pages] can raise: [_request] turns a bad HTTP status
    into [NotionClientError]; anything else (connection, JSON decoding)
    is some other exception. *)
Inductive ListingFault :=
  | ClientError (msg : pystr)
  | OtherError (msg : pystr).

(** The outcomes of the calls that leave the process during one run.
    - [remote_pages] is what the Notion database holds, [listing_fault] the
      exception of the listing request, if it raises;
    - [fetch_content] is [NotionClient.get_page_content], by page id;
    - [write_fault] and [upsert_fault] are the exceptions of
      [Path.write_text], by file name, and of [upsert_page], by page id;
    - [has_changes], [commit_outcome] and [push_outcome] are what
      [GitOperations.has_changes], [commit_sync] and [push] answer.
    The storage engine itself is taken not to fail: reading a row raises
    only in the converter of its timestamps, and appending to the log does
    not raise. *)
Record World := mkWorld {
  remote_pages : list NotionPage;
  listing_fault : option ListingFault;
  fetch_content : pystr -> pystr + pystr;
  write_fault : pystr -> option pystr;
  upsert_fault : pystr -> option pystr;
  has_changes : bool;
  commit_outcome : pystr + pystr;
  push_outcome : option pystr
}.

(** The [icon] of a block's data: the key is absent, or its value is JSON
    [null], or it is an object, with or without an [emoji]. *)
Inductive Icon :=
  | IconAbsent
  | IconNull
  | IconObject (emoji : option pystr).

(** A Notion block as [_blocks_to_markdown] reads it: the [type], and from
    the object stored under that type the [plain_text] of each item of
    [rich_text], the truth of [checked], the [language] (the empty string when
    absent) and the [icon]. *)
Record Block := mkBlock {
  block_type : pystr;
  block_rich_text : list pystr;
  block_checked : bool;
  block_language : pystr;
  block_icon : Icon
}.

(** Library functions the source calls and this development does not
    define: [str.isalnum] and [str.isspace] on one code point, SHA-256 in
    hex ([SyncDatabase.compute_hash]), [datetime.isoformat], the successive
    readings of the clock in microseconds, and the message of the
    [ValueError] that the [TIMESTAMP] converter of [sqlite3] raises on the
    text of a stored value. *)
Class Library := mkLibrary {
  isalnum : N -> bool;
  isspace : N -> bool;
  compute_hash : pystr -> pystr;
  isoformat : datetime -> pystr;
  clock : nat -> Z;
  converter_error : datetime -> pystr
}.

(** Conversions the git wrapper calls and this development does not define:
    [int(s)] ([None] for [ValueError]), [datetime.fromisoformat] (the
    exception or the time) and [str(n)] in an f-string. *)
Class Conversions := mkConversions {
  parse_int : pystr -> option Z;
  fromisoformat : pystr -> pystr + Z;
  str_of_int : nat -> pystr
}.

Section NotionSync.

Context {L : Library}.

(** ** database.py *)

(** What the default adapter and the [TIMESTAMP] converter of [sqlite3] make
    of a stored [datetime]. The adapter stores [isoformat(" ")]. The converter
    splits at the space, splits the time at [.], and reads hours, minutes and
    seconds from the part before it, split at [:]. A zone-less value comes
    back as it was. For a zone-aware value without a fraction of a second
    the part is [HH:MM:SS+HH:MM], and reading its numbers raises
    [ValueError]; with a fraction the offset is in the part after the [.],
    of which six characters are read, so the value comes back without its
    offset. *)
Definition convert_timestamp (stored : datetime) : pystr + datetime :=
  match utcoffset stored with
  | None => inr stored
  | Some _ =>
      if wall stored mod 1000000 =? 0 then inl (converter_error stored)
      else inr (mkDatetime (wall stored) None)
  end.

(** [SyncDatabase._row_to_record] on a fetched row: the converters have run,
    in the order of the columns. *)
Definition row_to_record (row : PageRecord) : pystr + PageRecord :=
  match convert_timestamp (last_edited row) with
  | inl e => inl e
  | inr edited =>
      match convert_timestamp (last_synced row) with
      | inl e => inl e
      | inr synced_at =>
          inr (mkPageRecord (notion_id row) (title row) (parent_id row)
                            (content_hash row) edited synced_at (status row))
      end
  end.

(** [SyncDatabase.get_page]: the exception of the converter, or the record,
    or [None]. *)
Definition get_page (st : State) (nid : pystr) : pystr + option PageRecord :=
  match db_pages st !! nid with
  | None => inr None
  | Some row =>
      match row_to_record row with
      | inl e => inl e
      | inr r => inr (Some r)
      end
  end.

Definition type_error_compare : pystr :=
  lit "can't compare offset-naive and offset-aware datetimes".

(** [a > b] on two [datetime] values. *)
Definition datetime_gt (a b : datetime) : pystr + bool :=
  match utcoffset a, utcoffset b with
  | None, None => inr (wall b <? wall a)
  | Some oa, Some ob => inr (wall b - ob <? wall a - oa)
  | _, _ => inl type_error_compare
  end.

(** [SyncDatabase.upsert_page]: insert, or on conflict replace every field. *)
Definition upsert_page (st : State) (page : PageRecord) : State :=
  mkState (<[notion_id page := page]> (db_pages st)) (db_sync_log st)
          (pages_dir st) (git_commits st) (git_pushed st) (ticks st).

(** [SyncDatabase.needs_sync]: the exception of [get_page] or of the
    comparison, or the answer. *)
Definition needs_sync (st : State) (nid : pystr) (edited : datetime) (h : pystr)
  : pystr + bool :=
  match get_page st nid with
  | inl e => inl e
  | inr None => inr true
  | inr (Some existing) =>
      if negb (bool_decide (content_hash existing = h)) then inr true
      else
        match datetime_gt edited (last_synced existing) with
        | inl e => inl e
        | inr true => inr true
        | inr false => inr false
        end
  end.

(** [datetime.utcnow()]: read the clock; the value is zone-less. *)
Definition utcnow (st : State) : datetime * State :=
  (mkDatetime (clock (ticks st)) None,
   mkState (db_pages st) (db_sync_log st) (pages_dir st)
           (git_commits st) (git_pushed st) (S (ticks st))).

(** SQLite's [CURRENT_TIMESTAMP]: the clock, in whole seconds. *)
Definition current_timestamp (st : State) : Z * State :=
  (clock (ticks st) / 1000000,
   mkState (db_pages st) (db_sync_log st) (pages_dir st)
           (git_commits st) (git_pushed st) (S (ticks st))).

(** [SyncDatabase.log_sync] *)
Definition log_sync (st : State) (n : nat) (dir stat msg : pystr) : State :=
  let '(now, st) := current_timestamp st in
  mkState (db_pages st)
          (db_sync_log st ++ [mkSyncLogEntry now n dir stat msg])
          (pages_dir st) (git_commits st) (git_pushed st) (ticks st).

(** [MAX(x)] over a column: NULL on no rows. *)
Fixpoint max_time (l : list Z) : option Z :=
  match l with
  | [] => None
  | t :: rest =>
      match max_time rest with
      | None => Some t
      | Some m => Some (Z.max t m)
      end
  end.

(** [SyncDatabase.get_last_sync_time]: [MAX(sync_time)] is an expression,
    so no converter runs on it, and the row holds the text, or [None]. *)
Definition get_last_sync_time (st : State) : option TimestampText :=
  mkTimestampText <$>
    max_time (log_sync_time <$>
              filter (fun e => log_status e = lit "success") (db_sync_log st)).

(** ** notion_client.py, as the orchestrator sees it *)

Definition attribute_error_isoformat : pystr :=
  lit "'str' object has no attribute 'isoformat'".

(** [NotionClient.get_database_pages], called with what
    [get_last_sync_time] returned. With [None] no filter is sent and the
    pages of the database come back, unless the request raises. A text is
    true in [if since:], and building the filter calls [since.isoformat()] on
    it, which raises [AttributeError] before any request is made. *)
Definition get_database_pages (w : World) (since : option TimestampText)
  : ListingFault + list NotionPage :=
  match since with
  | Some _ => inl (OtherError attribute_error_isoformat)
  | None =>
      match listing_fault w with
      | Some f => inl f
      | None => inr (remote_pages w)
      end
  end.

(** ** sync.py *)

Definition allowed (c : N) : bool :=
  isalnum c || bool_decide (c ∈ lit " -_").

Fixpoint lstrip (s : pystr) : pystr :=
  match s with
  | [] => []
  | c :: rest => if isspace c then lstrip rest else s
  end.

(** [str.strip()] *)
Definition strip (s : pystr) : pystr := rev (lstrip (rev (lstrip s))).

(** The [safe_title] of [_write_page_file]. *)
Definition safe_title (t : pystr) : pystr :=
  str_or (take 50 (strip (List.filter allowed t))) (lit "untitled").

(** The [filename] of [_write_page_file]. *)
Definition filename (page : NotionPage) : pystr :=
  safe_title (page_title page) ++ lit "_" ++ take 8 (page_id page) ++ lit ".md".

Definition nl : pystr := [10%N].

(** The [frontmatter] of [_write_page_file]. *)
Definition frontmatter (page : NotionPage) : pystr :=
  lit "---" ++ nl ++
  lit "notion_id: " ++ page_id page ++ nl ++
  lit "title: " ++ page_title page ++ nl ++
  lit "last_edited: " ++ isoformat (page_last_edited page) ++ nl ++
  lit "url: " ++ page_url page ++ nl ++
  lit "---" ++ nl ++
  nl.

(** The lines of the header block of a written file, as the file layout
    names them: identifier, title, last-edited timestamp, source URL, between
    two [---] rules. *)
Definition header_lines (page : NotionPage) : list pystr :=
  [ lit "---";
    lit "notion_id: " ++ page_id page;
    lit "title: " ++ page_title page;
    lit "last_edited: " ++ isoformat (page_last_edited page);
    lit "url: " ++ page_url page;
    lit "---" ].

Definition write_text (st : State) (path text : pystr) : State :=
  mkState (db_pages st) (db_sync_log st) (<[path := text]> (pages_dir st))
          (git_commits st) (git_pushed st) (ticks st).

(** [NotionSync._write_page_file]: the new state, or the exception of the
    write. *)
Definition write_page_file (w : World) (st : State) (page : NotionPage)
    (content : pystr) : pystr + State :=
  let path := filename page in
  match write_fault w path with
  | Some e => inl e
  | None => inr (write_text st path (frontmatter page ++ content))
  end.

Definition add_error (r : PullResult) (e : pystr) : PullResult :=
  mkPullResult (synced r) (skipped r) (pull_errors r ++ [e]).

Definition sync_failed (page : NotionPage) (e : pystr) : pystr :=
  lit "Failed to sync " ++ page_id page ++ lit ": " ++ e.

(** One iteration of the [for page in pages] loop of [_pull_from_notion],
    with its [try] / [except Exception]. *)
Definition sync_page (w : World) (acc : State * PullResult) (page : NotionPage)
  : State * PullResult :=
  let '(st, result) := acc in
  match fetch_content w (page_id page) with
  | inl e => (st, add_error result (sync_failed page e))
  | inr content =>
      let h := compute_hash content in
      match needs_sync st (page_id page) (page_last_edited page) h with
      | inl e => (st, add_error result (sync_failed page e))
      | inr false =>
        (st, mkPullResult (synced result) (S (skipped result)) (pull_errors result))
      | inr true =>
        match write_page_file w st page content with
        | inl e => (st, add_error result (sync_failed page e))
        | inr st1 =>
            let '(now, st2) := utcnow st1 in
            let record :=
              mkPageRecord (page_id page) (page_title page) (page_parent_id page)
                           h (page_last_edited page) now (lit "synced") in
            match upsert_fault w (page_id page) with
            | Some e => (st2, add_error result (sync_failed page e))
            | None =>
                (upsert_page st2 record,
                 mkPullResult (S (synced result)) (skipped result) (pull_errors result))
            end
        end
      end
  end.

Definition pull_loop (w : World) (pages : list NotionPage)
    (acc : State * PullResult) : State * PullResult :=
  fold_left (sync_page w) pages acc.

(** The dirty check finds nothing to write for a page: its content can be
    fetched and [needs_sync] is false for it. *)
Definition settled (w : World) (st : State) (page : NotionPage) : Prop :=
  exists content,
    fetch_content w (page_id page) = inr content /\
    needs_sync st (page_id page) (page_last_edited page) (compute_hash content)
      = inr false.


(** The number of outcomes recorded in a result dict. *)
Definition accounted (r : PullResult) : nat :=
  (synced r + skipped r + length (pull_errors r))%nat.

(** [NotionSync._pull_from_notion]: the result dict, or the exception that
    escapes it (only [NotionClientError] is caught around the listing). *)
Definition pull_from_notion (w : World) (st : State) : State * (pystr + PullResult) :=
  let result := mkPullResult 0 0 [] in
  let last_sync := get_last_sync_time st in
  match get_database_pages w last_sync with
  | inl (ClientError e) => (st, inr (add_error result (lit "Failed to fetch pages: " ++ e)))
  | inl (OtherError e) => (st, inl e)
  | inr pages =>
      let '(st1, r) := pull_loop w pages (st, result) in
      (st1, inr r)
  end.

Definition git_commit (st : State) (c : Commit) : State :=
  mkState (db_pages st) (db_sync_log st) (pages_dir st)
          (c :: git_commits st) (git_pushed st) (ticks st).

Definition git_push (st : State) : State :=
  mkState (db_pages st) (db_sync_log st) (pages_dir st)
          (git_commits st) (git_commits st) (ticks st).

(** The [except Exception] handler of [sync_now]. *)
Definition sync_aborted (st : State) (e : pystr) : State * SyncResult :=
  let st1 := log_sync st 0 (lit "pull") (lit "error") e in
  let '(now, st2) := utcnow st1 in
  (st2, mkSyncResult false (lit "pull") 0 0 [e] None now).

(** The last two statements of the [try] block of [sync_now]. *)
Definition sync_report (st : State) (n_synced n_skipped : nat)
    (errs : list pystr) (commit : option pystr) : State * SyncResult :=
  let st1 :=
    log_sync st n_synced (lit "pull")
             (if bool_decide (errs = []) then lit "success" else lit "partial")
             (if bool_decide (errs = []) then lit "" else join (lit "; ") errs) in
  let '(now, st2) := utcnow st1 in
  (st2, mkSyncResult (bool_decide (length errs = 0%nat)) (lit "pull")
                     n_synced n_skipped errs commit now).

(** An error entry that reports a failed push. *)
Definition push_related (e : pystr) : bool :=
  bool_decide (lit "Push failed: " `prefix_of` e).

(** [NotionSync.sync_now] *)
Definition sync_now (push : bool) (w : World) (st : State) : State * SyncResult :=
  match pull_from_notion w st with
  | (st1, inl e) => sync_aborted st1 e
  | (st1, inr pull_result) =>
      let n_synced := synced pull_result in
      let n_skipped := skipped pull_result in
      let errs := pull_errors pull_result in
      if has_changes w then
        match commit_outcome w with
        | inl e => sync_aborted st1 e
        | inr h =>
            let st2 := git_commit st1 (mkCommit h n_synced (lit "pull")) in
            if push then
              match push_outcome w with
              | Some e =>
                  sync_report st2 n_synced n_skipped
                              (errs ++ [lit "Push failed: " ++ e]) (Some h)
              | None => sync_report (git_push st2) n_synced n_skipped errs (Some h)
              end
            else sync_report st2 n_synced n_skipped errs (Some h)
        end
      else sync_report st1 n_synced n_skipped errs None
  end.

(** ** database.py, the other writers *)

(** [SyncDatabase.update_sync_status]: an [UPDATE ... WHERE notion_id = ?],
    which changes the row of that id, if there is one. *)
Definition update_sync_status (st : State) (nid stat : pystr) : State :=
  let '(now, st1) := utcnow st in
  mkState (alter (fun r => mkPageRecord (notion_id r) (title r) (parent_id r)
                             (content_hash r) (last_edited r) now stat)
                 nid (db_pages st1))
          (db_sync_log st1) (pages_dir st1) (git_commits st1) (git_pushed st1) (ticks st1).

(** [SyncDatabase.mark_synced] *)
Definition mark_synced (st : State) (nid h : pystr) : State :=
  let '(now, st1) := utcnow st in
  mkState (alter (fun r => mkPageRecord (notion_id r) (title r) (parent_id r)
                             h (last_edited r) now (lit "synced"))
                 nid (db_pages st1))
          (db_sync_log st1) (pages_dir st1) (git_commits st1) (git_pushed st1) (ticks st1).

(** [SyncDatabase.delete_page] *)
Definition delete_page (st : State) (nid : pystr) : State :=
  mkState (delete nid (db_pages st)) (db_sync_log st) (pages_dir st)
          (git_commits st) (git_pushed st) (ticks st).

(** ** notion_client.py, identifiers *)

Definition dash : N := 45%N.

(** [NotionClient._normalize_id]: [notion_id.replace("-", "")] *)
Definition normalize_id (nid : pystr) : pystr :=
  List.filter (fun c => negb (c =? dash)%N) nid.

(** [NotionClient._format_id] *)
Definition format_id (nid : pystr) : pystr :=
  let clean := normalize_id nid in
  if (length clean =? 32)%nat then
    take 8 clean ++ [dash] ++ take 4 (drop 8 clean) ++ [dash] ++
    take 4 (drop 12 clean) ++ [dash] ++ take 4 (drop 16 clean) ++ [dash] ++
    drop 20 clean
  else nid.

(** ** git_ops.py, the commit message and its parser *)

(** [str.split(sep)] for a non-empty [sep]: [cur] is the current piece,
    reversed, and [skip] counts the characters of a separator still to pass. *)
Fixpoint split_aux (sep s cur : pystr) (skip : nat) : list pystr :=
  match s with
  | [] => [rev cur]
  | c :: rest =>
      match skip with
      | S k => split_aux sep rest cur k
      | O =>
          if bool_decide (sep `prefix_of` s)
          then rev cur :: split_aux sep rest [] (length sep - 1)
          else split_aux sep rest (c :: cur) 0
      end
  end.

Definition split (sep s : pystr) : list pystr := split_aux sep s [] 0.

(** [needle in s] *)
Fixpoint str_contains (needle s : pystr) : bool :=
  match s with
  | [] => bool_decide (needle = [])
  | _ :: rest => bool_decide (needle `prefix_of` s) || str_contains needle rest
  end.

Context {T : Conversions}.

(** The [commit_msg] of [GitOperations.commit_sync]; [ts] is the
    [isoformat] of the time of the commit. *)
Definition commit_message (ts : pystr) (pages_changed : nat) (dir : pystr)
    (message : option pystr) : pystr :=
  let commit_msg :=
    lit "Sync " ++ ts ++ lit " | " ++ str_of_int pages_changed ++ lit " pages | " ++ dir in
  match message with
  | Some (c :: m) => commit_msg ++ lit " | " ++ c :: m
  | _ => commit_msg
  end.

(** The page count [get_last_sync_commit] reads from a message. *)
Definition pages_count_of (message : pystr) : Z :=
  if str_contains (lit "pages") message then
    let pages_part :=
      strip (List.last (split (lit "|") (hd [] (split (lit "pages") message))) []) in
    match parse_int pages_part with
    | Some n => n
    | None => 0
    end
  else 0.

(** [GitOperations.get_last_sync_commit], from the outcome of
    [git log -1 --grep=Sync --format=%H|%ci|%s]: the tuple or [None], or the
    exception of [fromisoformat], which is not caught. *)
Definition get_last_sync_commit (log_outcome : pystr + pystr)
  : pystr + option (pystr * Z * Z) :=
  match log_outcome with
  | inl _ => inr None
  | inr stdout =>
      match strip stdout with
      | [] => inr None
      | line =>
          let parts := split (lit "|") line in
          if (length parts <? 3)%nat then inr None
          else
            match fromisoformat (strip (nth 1 parts [])) with
            | inl e => inl e
            | inr timestamp =>
                inr (Some (nth 0 parts [], timestamp, pages_count_of (nth 2 parts [])))
            end
      end
  end.

(** ** notion_client.py, blocks to markdown *)

(** [NotionClient._extract_rich_text] *)
Definition extract_rich_text (rich_text : list pystr) : pystr := concat rich_text.

(** The emoji literal of the source, character by character. *)
Definition default_emoji : pystr := [240%N; 376%N; 8217%N; 161%N].

Definition attribute_error_get : pystr :=
  lit "'NoneType' object has no attribute 'get'".

(** [block_data.get("icon", {}).get("emoji", default)]: when [icon] is
    [null] the first [get] returns [None] and the second raises
    [AttributeError]. *)
Definition icon_emoji (i : Icon) : pystr + pystr :=
  match i with
  | IconAbsent => inr default_emoji
  | IconNull => inl attribute_error_get
  | IconObject None => inr default_emoji
  | IconObject (Some e) => inr e
  end.

(** One iteration of the loop of [_blocks_to_markdown]: the exception, or
    the line the block adds to [lines], if any. *)
Definition block_line (b : Block) : pystr + option pystr :=
  let ty := block_type b in
  let text := extract_rich_text (block_rich_text b) in
  if bool_decide (ty = lit "paragraph") then inr (Some text)
  else if bool_decide (ty = lit "heading_1") then inr (Some (lit "# " ++ text))
  else if bool_decide (ty = lit "heading_2") then inr (Some (lit "## " ++ text))
  else if bool_decide (ty = lit "heading_3") then inr (Some (lit "### " ++ text))
  else if bool_decide (ty = lit "bulleted_list_item") then inr (Some (lit "- " ++ text))
  else if bool_decide (ty = lit "numbered_list_item") then inr (Some (lit "1. " ++ text))
  else if bool_decide (ty = lit "to_do") then
    inr (Some (lit "- [" ++ (if block_checked b then lit "x" else lit " ")
                 ++ lit "] " ++ text))
  else if bool_decide (ty = lit "toggle") then
    inr (Some (lit "<details><summary>" ++ text ++ lit "</summary></details>"))
  else if bool_decide (ty = lit "code") then
    inr (Some (lit "```" ++ block_language b ++ nl ++ text ++ nl ++ lit "```"))
  else if bool_decide (ty = lit "quote") then inr (Some (lit "> " ++ text))
  else if bool_decide (ty = lit "divider") then inr (Some (lit "---"))
  else if bool_decide (ty = lit "callout") then
    match icon_emoji (block_icon b) with
    | inl e => inl e
    | inr emoji => inr (Some (lit "> " ++ emoji ++ lit " " ++ text))
    end
  else
    match text with
    | [] => inr None
    | _ => inr (Some text)
    end.

(** The loop of [_blocks_to_markdown]: the exception of the first block that
    raises, or the lines in the order of the blocks. *)
Fixpoint block_lines (blocks : list Block) : pystr + list pystr :=
  match blocks with
  | [] => inr []
  | b :: rest =>
      match block_line b with
      | inl e => inl e
      | inr line =>
          match block_lines rest with
          | inl e => inl e
          | inr lines => inr (option_list line ++ lines)
          end
      end
  end.

(** [NotionClient._blocks_to_markdown] *)
Definition blocks_to_markdown (blocks : list Block) : pystr + pystr :=
  match block_lines blocks with
  | inl e => inl e
  | inr lines => inr (join (nl ++ nl) lines)
  end.

(** [x] occurs in [s] as a run of consecutive characters. *)
Definition occurs_in (x s : pystr) : Prop :=
  exists before after, s = before ++ x ++ after.

End NotionSync.

(** ** Concrete inputs

    Instances of the library functions and a small remote database, used
    where a statement is evaluated on an explicit run. *)
Module Sample.

Definition between (lo hi c : N) : bool := ((lo <=? c) && (c <=? hi))%N.

(** [str.isalnum] on the ASCII range. *)
Definition ascii_isalnum (c : N) : bool :=
  between 48 57 c || between 65 90 c || between 97 122 c.

(** Whitespace of the ASCII range. *)
Definition ascii_isspace (c : N) : bool :=
  between 9 13 c || between 28 32 c.

(** Stands for SHA-256: the digest of a text is the text. *)
Definition digest (s : pystr) : pystr := s.

Definition iso (t : datetime) : pystr := lit "1970-01-01T00:00:10+00:00".

(** The clock starts at second 100 and advances by one second between two
    readings. *)
Definition clock (n : nat) : Z := 1000000 * (100 + Z.of_nat n).

Definition lib : Library :=
  mkLibrary ascii_isalnum ascii_isspace digest iso clock
            (fun _ => lit "invalid literal for int() with base 10: b'10+00'").

(** The time [_parse_page] builds from a [last_edited_time] that ends in
    [Z]: zone-aware, at offset 0. *)
Definition utc (seconds : Z) : datetime := mkDatetime (1000000 * seconds) (Some 0).

(** A zone-less time, as [datetime.utcnow()] gives. *)
Definition zoneless (seconds : Z) : datetime := mkDatetime (1000000 * seconds) None.

Definition empty : State := mkState ∅ [] ∅ [] [] 0.

Definition notes : NotionPage :=
  mkNotionPage (lit "aaa111") (lit "Notes") None (lit "") (utc 10)
               (lit "https://notion.so/aaa111").

Definition todo : NotionPage :=
  mkNotionPage (lit "bbb222") (lit "To do") None (lit "") (utc 20)
               (lit "https://notion.so/bbb222").

(** The same two pages with zone-less edit times. *)
Definition notes_local : NotionPage :=
  mkNotionPage (lit "aaa111") (lit "Notes") None (lit "") (zoneless 10)
               (lit "https://notion.so/aaa111").

Definition todo_local : NotionPage :=
  mkNotionPage (lit "bbb222") (lit "To do") None (lit "") (zoneless 20)
               (lit "https://notion.so/bbb222").

(** Every call succeeds; the working tree has changes to commit. *)
Definition calm (pages : list NotionPage) : World :=
  mkWorld pages None (fun _ => inr (lit "hello")) (fun _ => None) (fun _ => None)
          true (inr (lit "c0ffee11")) None.

(** The listing request is answered with an HTTP error. *)
Definition offline (pages : list NotionPage) : World :=
  mkWorld pages (Some (ClientError (lit "Notion API error: 503"))) (fun _ => inr (lit "hello"))
          (fun _ => None) (fun _ => None) true (inr (lit "c0ffee11")) None.

(** The content of page [bbb222] cannot be fetched. *)
Definition flaky (pages : list NotionPage) : World :=
  mkWorld pages None
          (fun i => if bool_decide (i = lit "bbb222")
                    then inl (lit "Notion API error: 502") else inr (lit "hello"))
          (fun _ => None) (fun _ => None) true (inr (lit "c0ffee11")) None.

(** [git commit] fails. *)
Definition commit_broken (pages : list NotionPage) : World :=
  mkWorld pages None (fun _ => inr (lit "hello")) (fun _ => None) (fun _ => None)
          true (inl (lit "Git command failed: git commit")) None.

(** A store that holds page [aaa111] with the content it still has, written
    by a run that was not logged as a success. *)
Definition seen_notes : State :=
  mkState {[ lit "aaa111" :=
               mkPageRecord (lit "aaa111") (lit "Notes") None (digest (lit "hello"))
                            (zoneless 10) (zoneless 50) (lit "synced") ]}
          [mkSyncLogEntry 51 1 (lit "pull") (lit "partial") (lit "Failed to sync bbb222: x")]
          ∅ [] [] 0.

(** Two pages with one title whose identifiers agree on the first eight
    characters. *)
Definition twin_a : NotionPage :=
  mkNotionPage (lit "12345678-aaaa-4000-8000-000000000001") (lit "Notes") None (lit "")
               (utc 10) (lit "https://notion.so/a").

Definition twin_b : NotionPage :=
  mkNotionPage (lit "12345678-bbbb-4000-8000-000000000002") (lit "Notes") None (lit "")
               (utc 20) (lit "https://notion.so/b").

(** The commit is made and [git push] is rejected. *)
Definition push_rejected (pages : list NotionPage) : World :=
  mkWorld pages None (fun _ => inr (lit "hello")) (fun _ => None) (fun _ => None)
          true (inr (lit "c0ffee11")) (Some (lit "Git command failed: git push origin")).

Definition greeting : NotionPage :=
  mkNotionPage (lit "ccc333dd-eeee") (lit "Hello, World!") None (lit "")
               (utc 30) (lit "https://notion.so/c").

(** [int] on a run of decimal digits. *)
Fixpoint parse_digits (s : pystr) (acc : Z) : option Z :=
  match s with
  | [] => Some acc
  | c :: rest =>
      if between 48 57 c then parse_digits rest (10 * acc + Z.of_N (c - 48)) else None
  end.

Definition parse_decimal (s : pystr) : option Z :=
  match s with
  | [] => None
  | _ => parse_digits s 0
  end.

(** [str] of a natural number. *)
Fixpoint decimal_aux (fuel n : nat) (acc : pystr) : pystr :=
  match fuel with
  | O => acc
  | S fuel' =>
      let acc' := N.of_nat (48 + n mod 10) :: acc in
      if (n / 10 =? 0)%nat then acc' else decimal_aux fuel' (n / 10) acc'
  end.

Definition decimal (n : nat) : pystr := decimal_aux (S n) n [].

Definition conv : Conversions :=
  mkConversions parse_decimal (fun _ => inr 1704103200) decimal.

(** What [git log -1 --grep=Sync --format=%H|%ci|%s] prints for a commit
    made by [commit_sync] with five pages. *)
Definition log_line : pystr :=
  lit "c0ffee11|2024-01-01 10:00:00 +0000|Sync 2024-01-01T10:00:00 | 5 pages | pull" ++ nl.

(** A page with the title of [notes] and another identifier. *)
Definition notes_copy : NotionPage :=
  mkNotionPage (lit "zzz999") (lit "Notes") None (lit "") (utc 15)
               (lit "https://notion.so/zzz999").

(** Page [aaa111] edited at 10.5 s: [last_edited_time] has a fraction of a
    second. *)
Definition notes_ms : NotionPage :=
  mkNotionPage (lit "aaa111") (lit "Notes") None (lit "")
               (mkDatetime 10500000 (Some 0)) (lit "https://notion.so/aaa111").

Definition heading : Block :=
  mkBlock (lit "heading_1") [lit "Plan"; lit " B"] false (lit "") IconAbsent.

Definition embed : Block :=
  mkBlock (lit "embed") [lit "see the link"] false (lit "") IconAbsent.

(** A callout without an icon, as the API sends it: ["icon": null]. *)
Definition plain_callout : Block :=
  mkBlock (lit "callout") [lit "mind the gap"] false (lit "") IconNull.

Definition run : bool -> World -> State -> State * SyncResult := sync_now (L := lib).

End Sample.

Section Properties.

Context {L : Library}.

(** ** The dirty check *)

Lemma convert_timestamp_zoneless (stored d : datetime) :
  convert_timestamp stored = inr d -> utcoffset d = None /\ wall d = wall stored.
Proof.
  unfold convert_timestamp.
  destruct (utcoffset stored) eqn:Hoff; [|by intros [= <-]].
  destruct (wall stored mod 1000000 =? 0); [done|]. by intros [= <-].
Qed.

(** A record that [get_page] returns has zone-less timestamps. *)
Lemma get_page_zoneless (st : State) (nid : pystr) (r : PageRecord) :
  get_page st nid = inr (Some r) ->
  utcoffset (last_edited r) = None /\ utcoffset (last_synced r) = None.
Proof.
  unfold get_page, row_to_record.
  destruct (db_pages st !! nid) as [row|]; [|done].
  destruct (convert_timestamp (last_edited row)) as [e|edited] eqn:He; [done|].
  destruct (convert_timestamp (last_synced row)) as [e|synced_at] eqn:Hs; [done|].
  intros [= <-]. cbn.
  by destruct (convert_timestamp_zoneless _ _ He), (convert_timestamp_zoneless _ _ Hs).
Qed.

(** X18. What [needs_sync] does, case by case. It answers true for an id
    without a record and for a record whose hash differs. For a record with
    the same hash it answers whether the edit time is after [last_synced]
    when the edit time is zone-less, and raises [TypeError] when the edit time
    is zone-aware, because the [last_synced] read back is zone-less. When the
    record cannot be read back it raises the error of [get_page]. *)
Theorem needs_sync_case_by_case (st : State) (nid : pystr) (edited : datetime)
    (h : pystr) :
  (get_page st nid = inr None -> needs_sync st nid edited h = inr true) /\
  (forall r, get_page st nid = inr (Some r) -> content_hash r <> h ->
     needs_sync st nid edited h = inr true) /\
  (forall r, get_page st nid = inr (Some r) -> content_hash r = h ->
     needs_sync st nid edited h =
       match utcoffset edited with
       | None => inr (wall (last_synced r) <? wall edited)
       | Some _ => inl type_error_compare
       end) /\
  (forall e, get_page st nid = inl e -> needs_sync st nid edited h = inl e).
Proof.
  unfold needs_sync. repeat split.
  - by intros ->.
  - intros r -> Hne. by rewrite bool_decide_eq_false_2.
  - intros r Hr Hh. destruct (get_page_zoneless st nid r Hr) as [_ Hzone].
    rewrite Hr, bool_decide_eq_true_2 by done. cbn.
    unfold datetime_gt. rewrite Hzone.
    destruct (utcoffset edited); [done|].
    by destruct (wall (last_synced r) <? wall edited).
  - by intros e ->.
Qed.

(** ** The per-page loop *)

(** C10. A candidate whose content was fetched and for which [needs_sync] is
    false changes nothing: the record store, the pages directory and the rest
    of the state are as before, and only the skipped count goes up by one. *)
Theorem skipped_page_frame (w : World) (st : State) (result : PullResult)
    (page : NotionPage) (content : pystr) :
  fetch_content w (page_id page) = inr content ->
  needs_sync st (page_id page) (page_last_edited page) (compute_hash content)
    = inr false ->
  sync_page w (st, result) page =
    (st, mkPullResult (synced result) (S (skipped result)) (pull_errors result)).
Proof.
  intros Hfetch Hneeds. unfold sync_page.
  rewrite Hfetch, Hneeds. reflexivity.
Qed.

Lemma sync_page_accounted (w : World) (st : State) (r : PullResult) (page : NotionPage) :
  accounted (sync_page w (st, r) page).2 = S (accounted r).
Proof.
  unfold sync_page, accounted.
  destruct (fetch_content w (page_id page)) as [e|content]; simpl.
  - rewrite length_app. simpl. lia.
  - destruct (needs_sync _ _ _ _) as [e|[|]]; simpl.
    + rewrite length_app. simpl. lia.
    + unfold write_page_file.
      destruct (write_fault w _); simpl.
      * rewrite length_app. simpl. lia.
      * destruct (upsert_fault w _); simpl; [|lia].
        rewrite length_app. simpl. lia.
    + lia.
Qed.

Lemma pull_loop_accounted (w : World) (pages : list NotionPage) :
  forall acc, accounted (pull_loop w pages acc).2 = (accounted acc.2 + length pages)%nat.
Proof.
  unfold pull_loop.
  induction pages as [|page pages IH]; intros [st r]; cbn [fold_left length].
  - cbn [snd]. lia.
  - rewrite IH, sync_page_accounted. cbn [snd]. lia.
Qed.

(** C9. When the listing returns, [_pull_from_notion] returns a result in
    which every candidate is counted once: synced, skipped and the error
    entries add up to the number of candidates. *)
Theorem every_candidate_counted (w : World) (st : State) (pages : list NotionPage) :
  get_database_pages w (get_last_sync_time st) = inr pages ->
  exists st' r,
    pull_from_notion w st = (st', inr r) /\
    (synced r + skipped r + length (pull_errors r))%nat = length pages.
Proof.
  intros Hlist. unfold pull_from_notion. rewrite Hlist.
  pose proof (pull_loop_accounted w pages (st, mkPullResult 0 0 [])) as Hacc.
  destruct (pull_loop w pages (st, mkPullResult 0 0 [])) as [st1 r].
  exists st1, r. split; [done|]. exact Hacc.
Qed.

(** ** The written file *)

Lemma Forall_lstrip (P : N -> Prop) (s : pystr) : Forall P s -> Forall P (lstrip s).
Proof.
  induction 1 as [|c s Hc Hs IH]; simpl; [constructor|].
  destruct (isspace c); [exact IH | by constructor].
Qed.

Lemma Forall_strip (P : N -> Prop) (s : pystr) : Forall P s -> Forall P (strip s).
Proof.
  intros Hs. unfold strip.
  apply Forall_rev, Forall_lstrip, Forall_rev, Forall_lstrip, Hs.
Qed.

Lemma Forall_filter_allowed (t : pystr) :
  Forall (fun c => allowed c = true) (List.filter allowed t).
Proof.
  apply List.Forall_forall. intros c Hc. by apply List.filter_In in Hc as [_ ?].
Qed.

Section Fallback.

(** The ASCII lower-case letters are alphanumeric. *)
Hypothesis isalnum_lower : forall c : N, (97 <= c <= 122)%N -> isalnum c = true.

Lemma untitled_allowed : Forall (fun c => allowed c = true) (lit "untitled").
Proof.
  assert (Hlower : forall c : N, (97 <= c <= 122)%N -> allowed c = true).
  { intros c Hc. unfold allowed. by rewrite isalnum_lower. }
  let l := eval vm_compute in (lit "untitled") in change (lit "untitled") with l.
  repeat (apply List.Forall_cons; [apply Hlower; lia |]).
  apply List.Forall_nil.
Qed.

(** C8. The sanitized title holds only alphanumeric characters, spaces,
    hyphens and underscores, is at most 50 characters long, and is the literal
    [untitled] when sanitizing leaves nothing; the file is written under
    [{safe_title}_{id[:8]}.md] and holds the header block, a blank line and
    the content. *)
Theorem written_file_shape (w : World) (st : State) (page : NotionPage)
    (content : pystr) :
  Forall (fun c => allowed c = true) (safe_title (page_title page))
  /\ (length (safe_title (page_title page)) <= 50)%nat
  /\ (take 50 (strip (List.filter allowed (page_title page))) = [] ->
      safe_title (page_title page) = lit "untitled")
  /\ (write_fault w (filename page) = None ->
      exists st',
        write_page_file w st page content = inr st' /\
        filename page =
          safe_title (page_title page) ++ lit "_" ++ take 8 (page_id page) ++ lit ".md" /\
        pages_dir st' !! filename page =
          Some (join nl (header_lines page) ++ nl ++ nl ++ content)).
Proof.
  split; [|split; [|split]].
  - unfold safe_title.
    destruct (take 50 _) as [|c s] eqn:Htake; simpl.
    + apply untitled_allowed.
    + rewrite <- Htake.
      apply Forall_take, Forall_strip, Forall_filter_allowed.
  - unfold safe_title.
    destruct (take 50 _) as [|c s] eqn:Htake; simpl.
    + change (length (lit "untitled")) with 8%nat. lia.
    + change (S (length s)) with (length (c :: s)). rewrite <- Htake.
      rewrite length_take. lia.
  - unfold safe_title. by intros ->.
  - intros Hok. unfold write_page_file. rewrite Hok.
    eexists. split; [reflexivity|]. split; [reflexivity|].
    unfold write_text. cbn [pages_dir]. rewrite lookup_insert_eq. f_equal.
    unfold frontmatter, header_lines. cbn [join].
    by rewrite <- !app_assoc.
Qed.

End Fallback.

(** X17. Pages with one title whose identifiers differ within the first
    eight characters are written to different files. *)
Lemma filename_distinct_prefix (p q : NotionPage) :
  page_title p = page_title q ->
  take 8 (page_id p) <> take 8 (page_id q) ->
  filename p <> filename q.
Proof.
  intros Ht Hne Heq. unfold filename in Heq. rewrite Ht in Heq.
  apply app_inv_head, app_inv_head, app_inv_tail in Heq. done.
Qed.

(** ** What the loop leaves alone *)

Lemma sync_page_frame (w : World) (st : State) (r : PullResult) (page : NotionPage) :
  db_sync_log (sync_page w (st, r) page).1 = db_sync_log st /\
  git_commits (sync_page w (st, r) page).1 = git_commits st /\
  git_pushed (sync_page w (st, r) page).1 = git_pushed st /\
  (ticks st <= ticks (sync_page w (st, r) page).1)%nat.
Proof.
  unfold sync_page.
  destruct (fetch_content w (page_id page)) as [e|content]; [simpl; auto|].
  destruct (needs_sync _ _ _ _) as [e|[|]]; [simpl; auto| |simpl; auto].
  unfold write_page_file.
  destruct (write_fault w _); [simpl; auto|].
  destruct (upsert_fault w _); simpl; auto.
Qed.

Lemma pull_loop_frame (w : World) (pages : list NotionPage) :
  forall acc,
    db_sync_log (pull_loop w pages acc).1 = db_sync_log acc.1 /\
    git_commits (pull_loop w pages acc).1 = git_commits acc.1 /\
    git_pushed (pull_loop w pages acc).1 = git_pushed acc.1 /\
    (ticks acc.1 <= ticks (pull_loop w pages acc).1)%nat.
Proof.
  unfold pull_loop.
  induction pages as [|page pages IH]; intros [st r]; cbn [fold_left].
  - auto.
  - destruct (IH (sync_page w (st, r) page)) as (Hlog & Hc & Hp & Ht).
    destruct (sync_page_frame w st r page) as (Hlog1 & Hc1 & Hp1 & Ht1).
    cbn [fst]. rewrite Hlog, Hc, Hp, Hlog1, Hc1, Hp1.
    repeat split; try done. etrans; [exact Ht1 | exact Ht].
Qed.

Lemma pull_from_notion_frame (w : World) (st : State) :
  db_sync_log (pull_from_notion w st).1 = db_sync_log st /\
  git_commits (pull_from_notion w st).1 = git_commits st /\
  git_pushed (pull_from_notion w st).1 = git_pushed st /\
  (ticks st <= ticks (pull_from_notion w st).1)%nat.
Proof.
  unfold pull_from_notion.
  destruct (get_database_pages w _) as [[e|e]|pages]; [simpl; auto..|].
  pose proof (pull_loop_frame w pages (st, mkPullResult 0 0 [])) as Hframe.
  destruct (pull_loop w pages _) as [st1 r]. exact Hframe.
Qed.

(** ** Error entries *)

Lemma failed_not_push_related (what rest : pystr) :
  head what = Some 70%N -> push_related (what ++ rest) = false.
Proof.
  intros Hhead. unfold push_related. apply bool_decide_eq_false.
  intros [k Hk]. destruct what as [|c what]; [done|].
  simpl in Hhead. injection Hhead as ->.
  apply (f_equal head) in Hk. vm_compute in Hk. discriminate.
Qed.

Lemma push_failed_related (e : pystr) : push_related (lit "Push failed: " ++ e) = true.
Proof. apply bool_decide_eq_true. by exists e. Qed.

Lemma sync_page_errors (w : World) (st : State) (r : PullResult) (page : NotionPage) :
  Forall (fun e => push_related e = false) (pull_errors r) ->
  Forall (fun e => push_related e = false) (pull_errors (sync_page w (st, r) page).2).
Proof.
  intros Hr.
  assert (Hnew : forall e, Forall (fun e => push_related e = false)
                                  (pull_errors (add_error r (sync_failed page e)))).
  { intros e. unfold add_error. cbn [pull_errors].
    apply Forall_app. split; [done|]. apply Forall_singleton.
    unfold sync_failed. by apply failed_not_push_related. }
  unfold sync_page.
  destruct (fetch_content w (page_id page)) as [e|content]; [apply Hnew|].
  destruct (needs_sync _ _ _ _) as [e|[|]]; [apply Hnew| |done].
  destruct (write_page_file w st page content) as [e|st1]; [apply Hnew|].
  destruct (upsert_fault w _); [apply Hnew | done].
Qed.

Lemma pull_loop_errors (w : World) (pages : list NotionPage) :
  forall acc,
    Forall (fun e => push_related e = false) (pull_errors acc.2) ->
    Forall (fun e => push_related e = false) (pull_errors (pull_loop w pages acc).2).
Proof.
  unfold pull_loop.
  induction pages as [|page pages IH]; intros [st r] Hacc; cbn [fold_left]; [done|].
  apply IH. destruct (sync_page w (st, r) page) as [st1 r1] eqn:Hstep.
  pose proof (sync_page_errors w st r page Hacc) as Hone.
  by rewrite Hstep in Hone.
Qed.

Lemma pull_from_notion_errors (w : World) (st st1 : State) (pr : PullResult) :
  pull_from_notion w st = (st1, inr pr) ->
  Forall (fun e => push_related e = false) (pull_errors pr).
Proof.
  unfold pull_from_notion.
  destruct (get_database_pages w _) as [[e|e]|pages].
  - intros [= <- <-].
    change (Forall (fun e => push_related e = false) [lit "Failed to fetch pages: " ++ e]).
    apply Forall_singleton. by apply failed_not_push_related.
  - done.
  - pose proof (pull_loop_errors w pages (st, mkPullResult 0 0 [])) as Hloop.
    destruct (pull_loop w pages _) as [st2 r]. intros [= <- <-].
    apply Hloop. constructor.
Qed.

Lemma filter_none {A} (f : A -> bool) (l : list A) :
  Forall (fun x => f x = false) l -> List.filter f l = [].
Proof.
  induction 1 as [|x l Hx Hl IH]; simpl; [done|]. by rewrite Hx.
Qed.

(** ** The run *)

Lemma success_iff_no_errors (errs : list pystr) :
  bool_decide (length errs = 0%nat) = true <-> errs = [].
Proof.
  rewrite bool_decide_eq_true. split; [apply nil_length_inv | by intros ->].
Qed.

(** C6. When the commit succeeds and the push then fails, the result still
    carries the commit hash, its error list is the errors of the pull followed
    by one [Push failed] entry, which is its only push-related entry, and the
    commit stays at the head of the local history. *)
Theorem push_failure_keeps_commit (w : World) (st st1 : State) (pr : PullResult)
    (h e : pystr) :
  pull_from_notion w st = (st1, inr pr) ->
  has_changes w = true ->
  commit_outcome w = inr h ->
  push_outcome w = Some e ->
  commit_hash (sync_now true w st).2 = Some h /\
  errors (sync_now true w st).2 = pull_errors pr ++ [lit "Push failed: " ++ e] /\
  List.filter push_related (errors (sync_now true w st).2) = [lit "Push failed: " ++ e] /\
  git_commits (sync_now true w st).1 =
    mkCommit h (synced pr) (lit "pull") :: git_commits st.
Proof.
  intros Hpull Hchanges Hcommit Hpush.
  pose proof (pull_from_notion_frame w st) as (_ & Hgit & _ & _).
  pose proof (pull_from_notion_errors w st st1 pr Hpull) as Herrs.
  unfold sync_now. rewrite Hpull in *. rewrite Hchanges, Hcommit, Hpush.
  cbn [fst] in Hgit. unfold sync_report, log_sync, utcnow, git_commit. simpl.
  repeat split; try done.
  - rewrite List.filter_app, (filter_none _ _ Herrs). simpl.
    by rewrite push_failed_related.
  - by rewrite Hgit.
Qed.

(** C7, for runs whose commit step does not raise. A run that completes the
    per-page loop appends exactly one log entry; its status is [success] when
    the run's error list is empty and [partial] otherwise, its [pages_synced]
    is the synced count of the loop, which the result reports, and the
    result's success flag is true exactly when its error list is empty. *)
Theorem run_logged_once (push : bool) (w : World) (st : State)
    (pages : list NotionPage) :
  get_database_pages w (get_last_sync_time st) = inr pages ->
  (has_changes w = true -> exists h, commit_outcome w = inr h) ->
  exists entry,
    db_sync_log (sync_now push w st).1 = db_sync_log st ++ [entry] /\
    log_status entry =
      (if bool_decide (errors (sync_now push w st).2 = [])
       then lit "success" else lit "partial") /\
    log_pages_synced entry = synced (pull_loop w pages (st, mkPullResult 0 0 [])).2 /\
    pages_synced (sync_now push w st).2 = log_pages_synced entry /\
    (success (sync_now push w st).2 = true <-> errors (sync_now push w st).2 = []).
Proof.
  intros Hlist Hcommit.
  pose proof (pull_from_notion_frame w st) as (Hlog & _).
  unfold sync_now. unfold pull_from_notion in *. rewrite Hlist in *.
  destruct (pull_loop w pages _) as [st1 pr]. cbn [fst snd] in *.
  destruct (has_changes w).
  - destruct Hcommit as [h ->]; [done|].
    destruct push; [destruct (push_outcome w)|];
      unfold sync_report, log_sync, utcnow, git_commit, git_push; simpl;
      rewrite Hlog; (eexists; split; [reflexivity|]); simpl;
      (repeat split; try done; apply success_iff_no_errors).
  - unfold sync_report, log_sync, utcnow; simpl.
    rewrite Hlog. eexists. split; [reflexivity|]. simpl.
    repeat split; try done; apply success_iff_no_errors.
Qed.

(** C2, as the code has it. When the listing request raises, no page is
    processed: the record store and the pages directory are unchanged, one log
    entry with zero pages synced is appended, and the result is failed with
    zero synced and zero skipped. An exception other than [NotionClientError]
    aborts the run: the entry has status [error] and nothing is committed. A
    [NotionClientError] is caught inside [_pull_from_notion], and the run goes
    on to the commit step: a commit is made when the working tree has
    changes, and the entry has status [partial] unless that commit raises. *)
Theorem listing_failure_run (push : bool) (w : World) (st : State) (f : ListingFault) :
  get_database_pages w (get_last_sync_time st) = inl f ->
  db_pages (sync_now push w st).1 = db_pages st /\
  pages_dir (sync_now push w st).1 = pages_dir st /\
  success (sync_now push w st).2 = false /\
  pages_synced (sync_now push w st).2 = 0%nat /\
  pages_skipped (sync_now push w st).2 = 0%nat /\
  exists entry,
    db_sync_log (sync_now push w st).1 = db_sync_log st ++ [entry] /\
    log_pages_synced entry = 0%nat /\
    match f with
    | OtherError e =>
        log_status entry = lit "error" /\
        git_commits (sync_now push w st).1 = git_commits st /\
        errors (sync_now push w st).2 = [e]
    | ClientError e =>
        match has_changes w, commit_outcome w with
        | true, inr h =>
            log_status entry = lit "partial" /\
            git_commits (sync_now push w st).1 =
              mkCommit h 0 (lit "pull") :: git_commits st /\
            commit_hash (sync_now push w st).2 = Some h
        | true, inl _ =>
            log_status entry = lit "error" /\
            git_commits (sync_now push w st).1 = git_commits st
        | false, _ =>
            log_status entry = lit "partial" /\
            git_commits (sync_now push w st).1 = git_commits st /\
            errors (sync_now push w st).2 = [lit "Failed to fetch pages: " ++ e]
        end
    end.
Proof.
  intros Hfault.
  unfold sync_now, pull_from_notion. rewrite Hfault.
  destruct f as [e|e].
  - cbn [add_error synced skipped pull_errors app].
    destruct (has_changes w); [destruct (commit_outcome w) as [e'|h]|].
    + unfold sync_aborted, log_sync, utcnow; simpl.
      repeat split; try done. by eexists.
    + destruct push; [destruct (push_outcome w)|];
        unfold sync_report, log_sync, utcnow, git_commit, git_push; simpl;
        (repeat split; try done); by eexists.
    + unfold sync_report, log_sync, utcnow; simpl.
      repeat split; try done. by eexists.
  - unfold sync_aborted, log_sync, utcnow; simpl.
    repeat split; try done. by eexists.
Qed.

(** ** One failed fetch among the candidates *)


(** An iteration touches the record of its own page only. *)
Lemma sync_page_other_record (w : World) (st : State) (r : PullResult)
    (page : NotionPage) (nid : pystr) :
  nid <> page_id page ->
  db_pages (sync_page w (st, r) page).1 !! nid = db_pages st !! nid.
Proof.
  intros Hne. unfold sync_page.
  destruct (fetch_content w (page_id page)) as [e|c]; [done|].
  destruct (needs_sync st _ _ _) as [e|[|]]; [done| |done].
  unfold write_page_file.
  destruct (write_fault w _); [done|].
  destruct (upsert_fault w _); [done|].
  cbn. by rewrite lookup_insert_ne.
Qed.

Lemma pull_loop_other_record (w : World) (pages : list NotionPage) (nid : pystr) :
  (forall p, p ∈ pages -> page_id p <> nid) ->
  forall acc, db_pages (pull_loop w pages acc).1 !! nid = db_pages acc.1 !! nid.
Proof.
  unfold pull_loop.
  induction pages as [|page pages IH]; intros Hother [st r]; cbn [fold_left]; [done|].
  rewrite IH by (intros p Hp; apply Hother; by right).
  apply sync_page_other_record. intros ->. by apply (Hother page); [left|].
Qed.







(** ** Re-running the loop *)

Lemma sync_page_settled_skips (w : World) (st : State) (r : PullResult)
    (page : NotionPage) :
  settled w st page ->
  sync_page w (st, r) page =
    (st, mkPullResult (synced r) (S (skipped r)) (pull_errors r)).
Proof.
  intros (content & Hfetch & Hneeds). unfold sync_page.
  by rewrite Hfetch, Hneeds.
Qed.

Lemma pull_loop_settled_skips (w : World) (pages : list NotionPage) (st : State) :
  Forall (settled w st) pages ->
  forall r,
    pull_loop w pages (st, r) =
      (st, mkPullResult (synced r) (skipped r + length pages) (pull_errors r)).
Proof.
  unfold pull_loop.
  induction 1 as [|page pages Hpage Hpages IH]; intros r; cbn [fold_left length].
  - destruct r. by rewrite Nat.add_0_r.
  - rewrite (sync_page_settled_skips w st r page Hpage), IH.
    cbn [synced skipped pull_errors]. do 2 f_equal. lia.
Qed.

(** A page of another identifier stays settled across an iteration. *)
Lemma sync_page_keeps_settled (w : World) (st : State) (r : PullResult)
    (page other : NotionPage) :
  page_id other <> page_id page ->
  settled w st other ->
  settled w (sync_page w (st, r) page).1 other.
Proof.
  intros Hne (content & Hfetch & Hneeds). exists content. split; [done|].
  rewrite <- Hneeds. unfold needs_sync, get_page.
  by rewrite sync_page_other_record.
Qed.

Lemma sync_page_errors_grow (w : World) (st : State) (r : PullResult) (page : NotionPage) :
  (length (pull_errors r) <= length (pull_errors (sync_page w (st, r) page).2))%nat.
Proof.
  unfold sync_page, add_error.
  destruct (fetch_content w (page_id page)) as [e|c]; cbn; [rewrite length_app; lia|].
  destruct (needs_sync st _ _ _) as [e|[|]]; cbn; [rewrite length_app; lia| |lia].
  unfold write_page_file.
  destruct (write_fault w _); cbn; [rewrite length_app; lia|].
  destruct (upsert_fault w _); cbn; [rewrite length_app; lia | lia].
Qed.

Lemma pull_loop_errors_grow (w : World) (pages : list NotionPage) :
  forall acc,
    (length (pull_errors acc.2) <= length (pull_errors (pull_loop w pages acc).2))%nat.
Proof.
  unfold pull_loop.
  induction pages as [|page pages IH]; intros [st r]; cbn [fold_left]; [done|].
  etrans; [apply (sync_page_errors_grow w st r page) | apply IH].
Qed.

(** After its own iteration, if that added no error, a page with a zone-less
    edit time that is not ahead of the clock is settled. *)
Lemma sync_page_settles (w : World) (st : State) (r : PullResult) (page : NotionPage) :
  utcoffset (page_last_edited page) = None ->
  wall (page_last_edited page) <= clock (ticks st) ->
  length (pull_errors (sync_page w (st, r) page).2) = length (pull_errors r) ->
  settled w (sync_page w (st, r) page).1 page.
Proof.
  intros Hzone Hedited. unfold settled, sync_page, add_error.
  destruct (fetch_content w (page_id page)) as [e|c]; cbn;
    [rewrite length_app; cbn; lia|].
  destruct (needs_sync st _ _ _) as [e|[|]] eqn:Hneeds; cbn;
    [rewrite length_app; cbn; lia| |by exists c].
  unfold write_page_file.
  destruct (write_fault w _); cbn; [rewrite length_app; cbn; lia|].
  destruct (upsert_fault w _); cbn; [rewrite length_app; cbn; lia|].
  intros _. exists c. split; [done|].
  unfold needs_sync, get_page, row_to_record, convert_timestamp, upsert_page. cbn.
  rewrite lookup_insert_eq. cbn. rewrite Hzone. cbn.
  rewrite bool_decide_eq_true_2 by done. cbn.
  unfold datetime_gt. cbn. rewrite Hzone.
  by apply Z.ltb_ge in Hedited as ->.
Qed.

Section Rerun.

Hypothesis clock_monotone : forall i j : nat, (i <= j)%nat -> clock i <= clock j.

Lemma pull_loop_settles (w : World) (pages : list NotionPage) :
  NoDup (page_id <$> pages) ->
  (forall q, q ∈ pages -> utcoffset (page_last_edited q) = None) ->
  forall st r done,
    (forall q, q ∈ pages -> wall (page_last_edited q) <= clock (ticks st)) ->
    (forall q d, q ∈ pages -> d ∈ done -> page_id d <> page_id q) ->
    length (pull_errors (pull_loop w pages (st, r)).2) = length (pull_errors r) ->
    Forall (settled w st) done ->
    Forall (settled w (pull_loop w pages (st, r)).1) (done ++ pages).
Proof.
  intros Hnodup Hzone. unfold pull_loop.
  induction pages as [|page pages IH]; intros st r done Hedited Hfresh Herrors Hdone;
    cbn [fold_left] in *.
  - by rewrite app_nil_r.
  - rewrite fmap_cons in Hnodup. apply NoDup_cons in Hnodup as [Hnotin Hnodup].
    pose proof (sync_page_errors_grow w st r page) as Hgrow1.
    pose proof (pull_loop_errors_grow w pages (sync_page w (st, r) page)) as Hgrow2.
    unfold pull_loop in Hgrow2.
    destruct (sync_page w (st, r) page) as [st1 r1] eqn:Hstep.
    assert (Hst1 : st1 = (sync_page w (st, r) page).1) by by rewrite Hstep.
    assert (Hr1 : r1 = (sync_page w (st, r) page).2) by by rewrite Hstep.
    cbn [fst snd] in *.
    rewrite (cons_middle page done pages), app_assoc.
    apply IH; try done.
    + intros q Hq. apply Hzone. by right.
    + intros q Hq. etrans; [apply Hedited; by right|].
      apply clock_monotone. rewrite Hst1. apply sync_page_frame.
    + intros q d Hq [Hd|Hd]%elem_of_app.
      * apply Hfresh; [by right | done].
      * apply list_elem_of_singleton in Hd as ->. intros Heq. apply Hnotin.
        rewrite Heq. by apply list_elem_of_fmap_2.
    + lia.
    + apply Forall_app. split.
      * apply Forall_forall. intros d Hd. rewrite Hst1.
        apply sync_page_keeps_settled.
        -- apply Hfresh; [by left | done].
        -- by eapply Forall_forall in Hdone.
      * apply Forall_singleton. rewrite Hst1.
        apply sync_page_settles.
        -- apply Hzone. by left.
        -- apply Hedited. by left.
        -- rewrite <- Hr1. lia.
Qed.

(** X16. For pages with zone-less edit times the loop is idempotent: run
    again over the candidates it has just processed without an error, it
    writes nothing and skips every one. *)
Lemma pull_loop_idempotent (w : World) (pages : list NotionPage) (st : State)
    (r r' : PullResult) :
  NoDup (page_id <$> pages) ->
  (forall q, q ∈ pages -> utcoffset (page_last_edited q) = None) ->
  (forall q, q ∈ pages -> wall (page_last_edited q) <= clock (ticks st)) ->
  pull_errors (pull_loop w pages (st, r)).2 = pull_errors r ->
  pull_loop w pages ((pull_loop w pages (st, r)).1, r') =
    ((pull_loop w pages (st, r)).1,
     mkPullResult (synced r') (skipped r' + length pages) (pull_errors r')).
Proof.
  intros Hnodup Hzone Hedited Herrors.
  apply pull_loop_settled_skips.
  apply (pull_loop_settles w pages Hnodup Hzone st r []); try done.
  - intros q d _ Hd. by apply elem_of_nil in Hd.
  - by rewrite Herrors.
Qed.

End Rerun.

(** ** The record store, operation by operation *)

Lemma get_page_none (st : State) (nid : pystr) :
  get_page st nid = inr None <-> db_pages st !! nid = None.
Proof.
  unfold get_page. destruct (db_pages st !! nid) as [row|]; [|done].
  by destruct (row_to_record row).
Qed.

Lemma row_to_record_zoneless (row : PageRecord) :
  utcoffset (last_edited row) = None ->
  utcoffset (last_synced row) = None ->
  row_to_record row = inr row.
Proof.
  intros He Hs. unfold row_to_record, convert_timestamp. rewrite He, Hs.
  by destruct row.
Qed.

(** X1. [upsert_page] stores the record under its id, replacing any earlier
    one entirely, and the table grows by one row for a new id and not at all
    for a known one. [get_page] gives the record back when both its
    timestamps are zone-less. When [last_edited] is zone-aware it never gives
    the record back: without a fraction of a second it raises the converter's
    error, and otherwise the offset is lost. Other ids read as before. *)
Theorem upsert_page_last_write_wins (st : State) (r1 r2 : PageRecord) :
  db_pages (upsert_page st r1) !! notion_id r1 = Some r1 /\
  (utcoffset (last_edited r1) = None -> utcoffset (last_synced r1) = None ->
     get_page (upsert_page st r1) (notion_id r1) = inr (Some r1)) /\
  (forall o, utcoffset (last_edited r1) = Some o ->
     get_page (upsert_page st r1) (notion_id r1) <> inr (Some r1) /\
     (wall (last_edited r1) mod 1000000 = 0 ->
      get_page (upsert_page st r1) (notion_id r1)
        = inl (converter_error (last_edited r1)))) /\
  (forall nid, nid <> notion_id r1 ->
     get_page (upsert_page st r1) nid = get_page st nid) /\
  (notion_id r2 = notion_id r1 ->
     upsert_page (upsert_page st r1) r2 = upsert_page st r2) /\
  size (db_pages (upsert_page st r1)) =
    match db_pages st !! notion_id r1 with
    | Some _ => size (db_pages st)
    | None => S (size (db_pages st))
    end.
Proof.
  unfold get_page, upsert_page. cbn [db_pages].
  split; [apply lookup_insert_eq|].
  split.
  { intros He Hs. by rewrite lookup_insert_eq, row_to_record_zoneless. }
  split.
  { intros o Ho. rewrite lookup_insert_eq. split.
    - destruct (row_to_record r1) as [e|r] eqn:Hrow; [done|].
      intros [= ->]. unfold row_to_record in Hrow.
      destruct (convert_timestamp (last_edited r1)) as [e|d] eqn:Hd; [done|].
      destruct (convert_timestamp (last_synced r1)) as [e|d']; [done|].
      apply convert_timestamp_zoneless in Hd as [Hd _].
      injection Hrow as Hrow. rewrite <- Hrow in Ho. cbn in Ho. congruence.
    - intros Hwhole. unfold row_to_record, convert_timestamp.
      rewrite Ho, Hwhole. done. }
  split; [intros nid Hne; by rewrite lookup_insert_ne|].
  split.
  - intros Heq. cbn. rewrite Heq. by rewrite insert_insert_eq.
  - destruct (db_pages st !! notion_id r1) as [r|] eqn:Hget.
    + rewrite map_size_insert_Some; [done | by eexists].
    + by rewrite map_size_insert_None.
Qed.

(** The dirty check on a row whose [last_synced] is the zone-less time [now]
    and whose hash is the one asked about. *)
Lemma needs_sync_fresh_row (st : State) (nid : pystr) (row : PageRecord)
    (edited : datetime) (now : Z) :
  db_pages st !! nid = Some row ->
  last_synced row = mkDatetime now None ->
  needs_sync st nid edited (content_hash row) =
    match convert_timestamp (last_edited row) with
    | inl e => inl e
    | inr _ =>
        match utcoffset edited with
        | None => inr (now <? wall edited)
        | Some _ => inl type_error_compare
        end
    end.
Proof.
  intros Hrow Hnow. unfold needs_sync, get_page, row_to_record. rewrite Hrow, Hnow.
  destruct (convert_timestamp (last_edited row)) as [e|d]; [done|]. cbn.
  rewrite bool_decide_eq_true_2 by done. cbn. unfold datetime_gt. cbn.
  destruct (utcoffset edited); [done|]. by destruct (now <? wall edited).
Qed.

(** X2. [mark_synced] creates nothing: for an id without a row the table is
    unchanged and the page still needs sync. For a known id it sets exactly
    the hash, [last_synced] (to the zone-less time of the call) and the
    status, and other rows are untouched. The dirty check for that hash then
    raises if the row's [last_edited] cannot be read back or the edit time
    asked about is zone-aware, and otherwise answers whether the page was
    edited after the call. *)
Theorem mark_synced_known_ids_only (st : State) (nid h : pystr) :
  (db_pages st !! nid = None ->
     db_pages (mark_synced st nid h) = db_pages st /\
     forall edited, needs_sync (mark_synced st nid h) nid edited h = inr true) /\
  (forall row, db_pages st !! nid = Some row ->
     db_pages (mark_synced st nid h) !! nid =
       Some (mkPageRecord (notion_id row) (title row) (parent_id row) h
                          (last_edited row) (mkDatetime (clock (ticks st)) None)
                          (lit "synced")) /\
     forall edited,
       needs_sync (mark_synced st nid h) nid edited h =
         match convert_timestamp (last_edited row) with
         | inl e => inl e
         | inr _ =>
             match utcoffset edited with
             | None => inr (clock (ticks st) <? wall edited)
             | Some _ => inl type_error_compare
             end
         end) /\
  (forall k, k <> nid ->
     db_pages (mark_synced st nid h) !! k = db_pages st !! k).
Proof.
  split; [|split].
  - intros Hnone.
    assert (Hsame : db_pages (mark_synced st nid h) = db_pages st).
    { unfold mark_synced, utcnow. cbn. apply map_eq. intros k. rewrite lookup_alter.
      case_decide; [subst; by rewrite Hnone | done]. }
    split; [done|]. intros edited. unfold needs_sync, get_page.
    by rewrite Hsame, Hnone.
  - intros row Hrow.
    assert (Hnew : db_pages (mark_synced st nid h) !! nid =
              Some (mkPageRecord (notion_id row) (title row) (parent_id row) h
                                 (last_edited row) (mkDatetime (clock (ticks st)) None)
                                 (lit "synced"))).
    { unfold mark_synced, utcnow. cbn. by rewrite lookup_alter_eq, Hrow. }
    split; [done|]. intros edited.
    exact (needs_sync_fresh_row _ nid _ edited (clock (ticks st)) Hnew eq_refl).
  - intros k Hne. unfold mark_synced, utcnow. cbn. by rewrite lookup_alter_ne.
Qed.

(** X3. [update_sync_status] creates nothing either, and for a known id it
    changes the status and also moves [last_synced] to the zone-less time of
    the call, keeping the hash and the other fields; other rows are
    untouched. So for the stored hash the dirty check afterwards does not
    depend on the earlier [last_synced]: it raises if [last_edited] cannot be
    read back or the edit time asked about is zone-aware, and otherwise
    answers whether the page was edited after the call. *)
Theorem update_sync_status_moves_last_synced (st : State) (nid stat : pystr) :
  (db_pages st !! nid = None ->
     db_pages (update_sync_status st nid stat) = db_pages st) /\
  (forall row, db_pages st !! nid = Some row ->
     db_pages (update_sync_status st nid stat) !! nid =
       Some (mkPageRecord (notion_id row) (title row) (parent_id row) (content_hash row)
                          (last_edited row) (mkDatetime (clock (ticks st)) None) stat) /\
     forall edited,
       needs_sync (update_sync_status st nid stat) nid edited (content_hash row) =
         match convert_timestamp (last_edited row) with
         | inl e => inl e
         | inr _ =>
             match utcoffset edited with
             | None => inr (clock (ticks st) <? wall edited)
             | Some _ => inl type_error_compare
             end
         end) /\
  (forall k, k <> nid ->
     db_pages (update_sync_status st nid stat) !! k = db_pages st !! k).
Proof.
  split; [|split].
  - intros Hnone. unfold update_sync_status, utcnow. cbn.
    apply map_eq. intros k. rewrite lookup_alter.
    case_decide; [subst; by rewrite Hnone | done].
  - intros row Hrow.
    assert (Hnew : db_pages (update_sync_status st nid stat) !! nid =
              Some (mkPageRecord (notion_id row) (title row) (parent_id row)
                                 (content_hash row) (last_edited row)
                                 (mkDatetime (clock (ticks st)) None) stat)).
    { unfold update_sync_status, utcnow. cbn. by rewrite lookup_alter_eq, Hrow. }
    split; [done|]. intros edited.
    exact (needs_sync_fresh_row _ nid _ edited (clock (ticks st)) Hnew eq_refl).
  - intros k Hne. unfold update_sync_status, utcnow. cbn. by rewrite lookup_alter_ne.
Qed.

(** X4. After [delete_page] the id has no record and needs sync again,
    whatever the hash and the edit time; other ids are untouched; and deleting
    a record just inserted for a new id gives the store back as it was. *)
Theorem delete_page_forgets (st : State) (nid : pystr) :
  get_page (delete_page st nid) nid = inr None /\
  (forall edited h, needs_sync (delete_page st nid) nid edited h = inr true) /\
  (forall k, k <> nid -> get_page (delete_page st nid) k = get_page st k) /\
  (forall r, notion_id r = nid -> get_page st nid = inr None ->
     delete_page (upsert_page st r) nid = st).
Proof.
  unfold needs_sync, get_page, delete_page, upsert_page. cbn [db_pages].
  split; [by rewrite lookup_delete_eq|].
  split; [intros edited h; by rewrite lookup_delete_eq|].
  split; [intros k Hne; by rewrite lookup_delete_ne|].
  intros r <- Hnone. apply (get_page_none st) in Hnone.
  cbn. rewrite delete_insert_eq, delete_id by done.
  by destruct st.
Qed.

(** ** What every run does *)

Lemma status_literals :
  lit "partial" <> lit "success" /\ lit "error" <> lit "success".
Proof. split; intros Heq; vm_compute in Heq; discriminate. Qed.

Lemma sync_aborted_log (st : State) (e : pystr) :
  db_sync_log (sync_aborted st e).1 =
    db_sync_log st ++
      [mkSyncLogEntry (clock (ticks st) / 1000000) 0 (lit "pull") (lit "error") e] /\
  (sync_aborted st e).2 =
    mkSyncResult false (lit "pull") 0 0 [e] None (mkDatetime (clock (S (ticks st))) None).
Proof. done. Qed.

Lemma sync_report_log (st : State) (n k : nat) (errs : list pystr) (c : option pystr) :
  db_sync_log (sync_report st n k errs c).1 =
    db_sync_log st ++
      [mkSyncLogEntry (clock (ticks st) / 1000000) n (lit "pull")
         (if bool_decide (errs = []) then lit "success" else lit "partial")
         (if bool_decide (errs = []) then lit "" else join (lit "; ") errs)] /\
  (sync_report st n k errs c).2 =
    mkSyncResult (bool_decide (length errs = 0%nat)) (lit "pull") n k errs c
                 (mkDatetime (clock (S (ticks st))) None).
Proof. done. Qed.

(** The entry a run appends, against the result it returns. *)
Lemma sync_now_log (push : bool) (w : World) (st : State) :
  exists entry,
    db_sync_log (sync_now push w st).1 = db_sync_log st ++ [entry] /\
    log_pages_synced entry = pages_synced (sync_now push w st).2 /\
    log_direction entry = lit "pull" /\
    (log_status entry = lit "success" <-> success (sync_now push w st).2 = true) /\
    (success (sync_now push w st).2 = true <-> errors (sync_now push w st).2 = []).
Proof.
  pose proof (pull_from_notion_frame w st) as (Hlog & _).
  destruct status_literals as [Hpartial Herror].
  assert (Haborted : forall st1 e,
    db_sync_log st1 = db_sync_log st ->
    exists entry,
      db_sync_log (sync_aborted st1 e).1 = db_sync_log st ++ [entry] /\
      log_pages_synced entry = pages_synced (sync_aborted st1 e).2 /\
      log_direction entry = lit "pull" /\
      (log_status entry = lit "success" <-> success (sync_aborted st1 e).2 = true) /\
      (success (sync_aborted st1 e).2 = true <-> errors (sync_aborted st1 e).2 = [])).
  { intros st1 e Hst1.
    destruct (sync_aborted_log st1 e) as [-> ->]. rewrite Hst1.
    eexists. split; [reflexivity|]. cbn. repeat split; done. }
  assert (Hreport : forall st1 n k errs c,
    db_sync_log st1 = db_sync_log st ->
    exists entry,
      db_sync_log (sync_report st1 n k errs c).1 = db_sync_log st ++ [entry] /\
      log_pages_synced entry = pages_synced (sync_report st1 n k errs c).2 /\
      log_direction entry = lit "pull" /\
      (log_status entry = lit "success" <-> success (sync_report st1 n k errs c).2 = true) /\
      (success (sync_report st1 n k errs c).2 = true
       <-> errors (sync_report st1 n k errs c).2 = [])).
  { intros st1 n k errs c Hst1.
    destruct (sync_report_log st1 n k errs c) as [-> ->]. rewrite Hst1.
    eexists. split; [reflexivity|]. cbn.
    split; [done|]. split; [done|]. split; [|apply success_iff_no_errors].
    rewrite success_iff_no_errors. case_bool_decide; split; done. }
  unfold sync_now.
  destruct (pull_from_notion w st) as [st1 [e|pr]]; cbn [fst] in Hlog;
    [by apply Haborted|].
  destruct (has_changes w); [|by apply Hreport].
  destruct (commit_outcome w) as [e|h]; [by apply Haborted|].
  destruct push; [destruct (push_outcome w)|]; by apply Hreport.
Qed.

(** X5. Every run, however it ends, appends exactly one log entry, with
    direction [pull]; the entry's [pages_synced] is the count the result
    reports, its status is [success] exactly when the result's success flag is
    true, and the flag is true exactly when the result's error list is
    empty. *)
Theorem run_log_matches_result (push : bool) (w : World) (st : State) :
  exists entry,
    db_sync_log (sync_now push w st).1 = db_sync_log st ++ [entry] /\
    log_pages_synced entry = pages_synced (sync_now push w st).2 /\
    log_direction entry = lit "pull" /\
    (log_status entry = lit "success" <-> success (sync_now push w st).2 = true) /\
    (success (sync_now push w st).2 = true <-> errors (sync_now push w st).2 = []).
Proof. apply sync_now_log. Qed.

Lemma max_time_snoc (l : list Z) (t : Z) :
  max_time (l ++ [t]) =
    Some (match max_time l with Some m => Z.max m t | None => t end).
Proof.
  induction l as [|x l IH]; [done|].
  cbn [app max_time]. rewrite IH.
  destruct (max_time l) as [m|]; f_equal; lia.
Qed.

Lemma last_sync_time_snoc (st st' : State) (entry : SyncLogEntry) :
  db_sync_log st' = db_sync_log st ++ [entry] ->
  get_last_sync_time st' =
    if bool_decide (log_status entry = lit "success")
    then Some (mkTimestampText
                 match get_last_sync_time st with
                 | Some m => Z.max (text_seconds m) (log_sync_time entry)
                 | None => log_sync_time entry
                 end)
    else get_last_sync_time st.
Proof.
  intros Hlog. unfold get_last_sync_time. rewrite Hlog, filter_app, fmap_app.
  case_bool_decide as Hstatus.
  - rewrite filter_cons_True, filter_nil by done. cbn [fmap list_fmap].
    rewrite max_time_snoc. by destruct (max_time _).
  - rewrite filter_cons_False, filter_nil by done. by rewrite app_nil_r.
Qed.


(** After the pull, a run writes to the log, the git history and the clock
    only. *)
Lemma sync_now_store (push : bool) (w : World) (st : State) :
  db_pages (sync_now push w st).1 = db_pages (pull_from_notion w st).1 /\
  pages_dir (sync_now push w st).1 = pages_dir (pull_from_notion w st).1.
Proof.
  unfold sync_now.
  destruct (pull_from_notion w st) as [st1 [e|pr]]; [done|].
  destruct (has_changes w); [|done].
  destruct (commit_outcome w) as [e|h]; [done|].
  destruct push; [destruct (push_outcome w)|]; done.
Qed.

Lemma sync_page_keeps (w : World) (st : State) (r : PullResult) (page : NotionPage) :
  dom (db_pages st) ⊆ dom (db_pages (sync_page w (st, r) page).1) /\
  dom (pages_dir st) ⊆ dom (pages_dir (sync_page w (st, r) page).1).
Proof.
  unfold sync_page.
  destruct (fetch_content w (page_id page)) as [e|c]; [done|].
  destruct (needs_sync st _ _ _) as [e|[|]]; [done| |done].
  unfold write_page_file.
  destruct (write_fault w _); [done|].
  destruct (upsert_fault w _); cbn; rewrite ?dom_insert_L; set_solver.
Qed.

Lemma pull_loop_keeps (w : World) (pages : list NotionPage) :
  forall acc,
    dom (db_pages acc.1) ⊆ dom (db_pages (pull_loop w pages acc).1) /\
    dom (pages_dir acc.1) ⊆ dom (pages_dir (pull_loop w pages acc).1).
Proof.
  unfold pull_loop.
  induction pages as [|page pages IH]; intros [st r]; cbn [fold_left]; [done|].
  destruct (IH (sync_page w (st, r) page)) as [Hdb Hfiles].
  destruct (sync_page_keeps w st r page) as [Hdb1 Hfiles1].
  cbn [fst]. split; etrans; done.
Qed.

(** X7. A run never removes anything: every id with a record before the run
    has one after it, and every file of the pages directory is still there;
    and the record of an id that is not the id of a page of the remote
    database is exactly as before. *)
Theorem run_never_deletes (push : bool) (w : World) (st : State) :
  dom (db_pages st) ⊆ dom (db_pages (sync_now push w st).1) /\
  dom (pages_dir st) ⊆ dom (pages_dir (sync_now push w st).1) /\
  (forall nid, (forall p, p ∈ remote_pages w -> page_id p <> nid) ->
     get_page (sync_now push w st).1 nid = get_page st nid).
Proof.
  destruct (sync_now_store push w st) as [-> Hfiles]. unfold get_page.
  rewrite Hfiles. destruct (sync_now_store push w st) as [-> _].
  unfold pull_from_notion, get_database_pages.
  destruct (get_last_sync_time st); [done|].
  destruct (listing_fault w) as [[e|e]|]; [done..|].
  pose proof (pull_loop_keeps w (remote_pages w) (st, mkPullResult 0 0 []))
    as [Hdb Hdir].
  pose proof (fun nid H =>
                pull_loop_other_record w (remote_pages w) nid H
                  (st, mkPullResult 0 0 [])) as Hother.
  destruct (pull_loop w _ _) as [st1 r]. cbn [fst] in *.
  split; [done|]. split; [done|].
  intros nid Hnid. rewrite (Hother nid); [done|].
  intros p Hp. by apply Hnid.
Qed.


(** ** What an iteration leaves behind *)

(** X9. When an iteration counts its page as synced, the content was
    fetched, the table holds a row for the page with the hash of that
    content, the page's edit time as the API gave it, the zone-less time of
    the write as [last_synced] and status [synced], and the file of the page
    holds the frontmatter and the content. The next dirty check of the page
    with the same content answers only for a zone-less edit time (true when
    it is ahead of the local clock); for a zone-aware one it raises, the
    converter's error when the edit time has no fraction of a second and the
    comparison's otherwise. *)
Theorem synced_page_recorded (w : World) (st : State) (r : PullResult)
    (page : NotionPage) :
  synced (sync_page w (st, r) page).2 = S (synced r) ->
  exists content,
    fetch_content w (page_id page) = inr content /\
    db_pages (sync_page w (st, r) page).1 !! page_id page =
      Some (mkPageRecord (page_id page) (page_title page) (page_parent_id page)
                         (compute_hash content) (page_last_edited page)
                         (mkDatetime (clock (ticks st)) None) (lit "synced")) /\
    pages_dir (sync_page w (st, r) page).1 !! filename page =
      Some (frontmatter page ++ content) /\
    needs_sync (sync_page w (st, r) page).1 (page_id page) (page_last_edited page)
               (compute_hash content) =
      match utcoffset (page_last_edited page) with
      | None => inr (clock (ticks st) <? wall (page_last_edited page))
      | Some _ =>
          inl (if wall (page_last_edited page) mod 1000000 =? 0
               then converter_error (page_last_edited page)
               else type_error_compare)
      end.
Proof.
  unfold sync_page.
  destruct (fetch_content w (page_id page)) as [e|content]; cbn; [lia|].
  destruct (needs_sync st _ _ _) as [e|[|]]; cbn; [lia| |lia].
  unfold write_page_file.
  destruct (write_fault w _); cbn; [lia|].
  destruct (upsert_fault w _); cbn; [lia|]. intros _.
  exists content. split; [done|].
  split; [by rewrite lookup_insert_eq|].
  split; [by rewrite lookup_insert_eq|].
  match goal with
  | |- needs_sync (upsert_page ?s ?row) _ _ _ = _ =>
      etrans;
      [exact (needs_sync_fresh_row (upsert_page s row) (page_id page) row
                (page_last_edited page) (clock (ticks st))
                (lookup_insert_eq _ _ _) eq_refl)|]
  end.
  cbn. unfold convert_timestamp.
  destruct (utcoffset (page_last_edited page)) as [o|] eqn:Ho; [|done].
  by destruct (wall (page_last_edited page) mod 1000000 =? 0).
Qed.

Lemma sync_page_synced (w : World) (st : State) (r : PullResult) (page : NotionPage) :
  (synced r <= synced (sync_page w (st, r) page).2)%nat /\
  (synced (sync_page w (st, r) page).2 = synced r ->
   db_pages (sync_page w (st, r) page).1 = db_pages st).
Proof.
  unfold sync_page.
  destruct (fetch_content w (page_id page)) as [e|content]; cbn; [auto|].
  destruct (needs_sync st _ _ _) as [e|[|]]; cbn; [auto| |auto].
  unfold write_page_file.
  destruct (write_fault w _); cbn; [auto|].
  destruct (upsert_fault w _); cbn; [auto|]. split; lia.
Qed.

Lemma pull_loop_synced_mono (w : World) (pages : list NotionPage) :
  forall acc, (synced acc.2 <= synced (pull_loop w pages acc).2)%nat.
Proof.
  unfold pull_loop.
  induction pages as [|page pages IH]; intros [st r]; cbn [fold_left]; [done|].
  etrans; [apply (sync_page_synced w st r page) | apply IH].
Qed.

(** X10. The record store changes only through pages counted as synced: if
    the loop ends with the synced count it started with, every record is as
    before, whatever was skipped or failed. *)
Theorem unsynced_loop_keeps_records (w : World) (pages : list NotionPage) :
  forall st r,
    synced (pull_loop w pages (st, r)).2 = synced r ->
    db_pages (pull_loop w pages (st, r)).1 = db_pages st.
Proof.
  induction pages as [|page pages IH]; intros st r Hsame; [done|].
  unfold pull_loop in *. cbn [fold_left] in *.
  destruct (sync_page_synced w st r page) as [Hmono Hkeep].
  pose proof (pull_loop_synced_mono w pages (sync_page w (st, r) page)) as Hrest.
  unfold pull_loop in Hrest.
  destruct (sync_page w (st, r) page) as [st1 r1]. cbn [fst snd] in *.
  rewrite IH by lia. apply Hkeep. lia.
Qed.

(** ** File names *)

Lemma safe_title_length (t : pystr) :
  (0 < length (safe_title t) <= 50)%nat.
Proof.
  unfold safe_title.
  destruct (take 50 _) as [|c s] eqn:Htake; cbn [str_or].
  - change (length (lit "untitled")) with 8%nat. lia.
  - rewrite <- Htake, length_take. split; [|lia].
    rewrite <- length_take, Htake. cbn. lia.
Qed.

(** X11. The name of a written file is never empty before the underscore,
    is at most 62 characters long (50 of title, the underscore, 8 of the
    identifier, [.md]) and ends in [.md]. *)
Theorem filename_bounded (page : NotionPage) :
  safe_title (page_title page) <> [] /\
  (length (filename page) <= 62)%nat /\
  lit ".md" `suffix_of` filename page.
Proof.
  pose proof (safe_title_length (page_title page)) as Hlen.
  split; [|split].
  - intros Heq. rewrite Heq in Hlen. cbn in Hlen. lia.
  - unfold filename. rewrite !length_app, length_take.
    change (length (lit "_")) with 1%nat. change (length (lit ".md")) with 3%nat. lia.
  - unfold filename.
    exists (safe_title (page_title page) ++ lit "_" ++ take 8 (page_id page)).
    by rewrite <- !app_assoc.
Qed.

(** ** Identifiers *)

Lemma normalize_id_no_dash (nid : pystr) :
  Forall (fun c => (c =? dash)%N = false) (normalize_id nid).
Proof.
  apply List.Forall_forall. intros c Hc.
  apply List.filter_In in Hc as [_ Hc]. by apply negb_true_iff.
Qed.

Lemma normalize_id_clean (s : pystr) :
  Forall (fun c => (c =? dash)%N = false) s -> normalize_id s = s.
Proof.
  induction 1 as [|c s Hc Hs IH]; [done|].
  unfold normalize_id in *. cbn. by rewrite Hc, IH.
Qed.

Lemma normalize_id_app (a b : pystr) :
  normalize_id (a ++ b) = normalize_id a ++ normalize_id b.
Proof. apply List.filter_app. Qed.

Lemma take_drop_step {A} (k n : nat) (l : list A) :
  take n (drop k l) ++ drop (k + n) l = drop k l.
Proof. by rewrite <- drop_drop, take_drop. Qed.

(** X12. Formatting an identifier does not change what it normalizes to, and
    formatting twice is formatting once. An identifier with 32 characters
    besides its dashes is formatted to 36 characters; any other identifier is
    returned as it is. *)
Theorem format_id_round_trip (nid : pystr) :
  normalize_id (format_id nid) = normalize_id nid /\
  format_id (format_id nid) = format_id nid /\
  (length (normalize_id nid) = 32%nat -> length (format_id nid) = 36%nat) /\
  (length (normalize_id nid) <> 32%nat -> format_id nid = nid).
Proof.
  assert (Hnorm : normalize_id (format_id nid) = normalize_id nid).
  { unfold format_id.
    destruct (Nat.eqb_spec (length (normalize_id nid)) 32) as [Hlen|Hlen]; [|done].
    pose proof (normalize_id_no_dash nid) as Hclean.
    set (clean := normalize_id nid) in *.
    rewrite !normalize_id_app.
    change (normalize_id [dash]) with (@nil N). cbn [app].
    rewrite !normalize_id_clean by (try apply Forall_take; try apply Forall_drop; done).
    assert (H16 : take 4 (drop 16 clean) ++ drop 20 clean = drop 16 clean)
      by apply (take_drop_step 16 4).
    assert (H12 : take 4 (drop 12 clean) ++ drop 16 clean = drop 12 clean)
      by apply (take_drop_step 12 4).
    assert (H8 : take 4 (drop 8 clean) ++ drop 12 clean = drop 8 clean)
      by apply (take_drop_step 8 4).
    rewrite H16, H12, H8. apply take_drop. }
  split; [done|]. split; [|split].
  - unfold format_id at 1. rewrite Hnorm. unfold format_id.
    by destruct (length (normalize_id nid) =? 32)%nat.
  - intros Hlen. unfold format_id. rewrite Hlen. cbn [Nat.eqb].
    rewrite !length_app, !length_take, !length_drop, Hlen. cbn. lia.
  - intros Hlen. unfold format_id.
    by destruct (Nat.eqb_spec (length (normalize_id nid)) 32).
Qed.

(** ** The commit message, read back *)

Lemma split_bar_piece (piece : pystr) :
  124%N ∉ piece ->
  forall rest cur,
    split_aux [124%N] (piece ++ 124%N :: rest) cur 0 =
      (rev cur ++ piece) :: split_aux [124%N] rest [] 0.
Proof.
  induction piece as [|c piece IH]; intros Hbar rest cur.
  - cbn. rewrite bool_decide_eq_true_2; [by rewrite app_nil_r|].
    by exists rest.
  - apply not_elem_of_cons in Hbar as [Hc Hbar]. cbn [app split_aux].
    rewrite bool_decide_eq_false_2.
    + rewrite IH by done. cbn [rev]. by rewrite <- app_assoc.
    + intros [k Hk]. cbn in Hk. congruence.
Qed.

Lemma no_p_no_pages (s : pystr) :
  112%N ∉ s -> str_contains (lit "pages") s = false.
Proof.
  induction s as [|c s IH]; intros Hp.
  - cbn. apply bool_decide_eq_false_2. intros Heq. vm_compute in Heq. discriminate.
  - apply not_elem_of_cons in Hp as [Hc Hp]. cbn [str_contains].
    rewrite IH, orb_false_r by done. apply bool_decide_eq_false_2.
    intros [k Hk]. apply (f_equal head) in Hk. vm_compute in Hk. congruence.
Qed.

Lemma subject_frame_chars :
  (124%N ∉ lit "Sync ") /\ (124%N ∉ lit " ") /\
  (112%N ∉ lit "Sync ") /\ (112%N ∉ lit " ").
Proof. repeat split; apply (bool_decide_unpack _); by vm_compute. Qed.

Section GitLog.

Context {T : Conversions}.

Lemma commit_message_head (ts : pystr) (n : nat) (dir : pystr) (message : option pystr) :
  exists tail,
    commit_message ts n dir message = (lit "Sync " ++ ts ++ lit " ") ++ 124%N :: tail.
Proof.
  assert (Hsep : forall rest : pystr, lit " | " ++ rest = lit " " ++ 124%N :: lit " " ++ rest)
    by done.
  unfold commit_message.
  destruct message as [[|c m]|]; eexists; rewrite Hsep, <- !app_assoc; reflexivity.
Qed.

(** X13. The page count that [commit_sync] writes into its message is not
    read back: for the log line of a commit whose subject is such a message,
    [get_last_sync_commit] returns the hash, the parsed commit time and a page
    count of 0, whatever count and direction the message holds, because the
    line is split at every bar and only the piece before the first bar of the
    subject is searched for [pages]. *)
Theorem sync_commit_count_not_read_back (stdout hash ci ts : pystr) (n : nat)
    (dir : pystr) (message : option pystr) (t : Z) :
  strip stdout = hash ++ lit "|" ++ ci ++ lit "|" ++ commit_message ts n dir message ->
  124%N ∉ hash -> 124%N ∉ ci -> 124%N ∉ ts -> 112%N ∉ ts ->
  fromisoformat (strip ci) = inr t ->
  get_last_sync_commit (inr stdout) = inr (Some (hash, t, 0)).
Proof.
  intros Hline Hhash Hci Hts Hp Htime.
  destruct (commit_message_head ts n dir message) as [tail Hmsg].
  rewrite Hmsg in Hline.
  change (lit "|") with [124%N] in *. cbn [app] in Hline.
  assert (Hsubject : (124%N ∉ lit "Sync " ++ ts ++ lit " ") /\
                     (112%N ∉ lit "Sync " ++ ts ++ lit " ")).
  { destruct subject_frame_chars as (Hb1 & Hb2 & Hp1 & Hp2).
    rewrite !not_elem_of_app. done. }
  destruct Hsubject as [Hbar Hnop].
  unfold get_last_sync_commit.
  destruct (strip stdout) as [|c line]; [by destruct hash|].
  rewrite Hline. change (lit "|") with [124%N]. unfold split.
  rewrite !split_bar_piece by done.
  cbn [rev app length Nat.ltb Nat.leb nth].
  rewrite Htime. unfold pages_count_of.
  by rewrite no_p_no_pages.
Qed.

End GitLog.

(** ** Blocks to markdown *)

Lemma occurs_in_refl (x : pystr) : occurs_in x x.
Proof. exists [], []. by rewrite app_nil_r. Qed.

Lemma occurs_in_head (x rest : pystr) : occurs_in x (x ++ rest).
Proof. by exists [], rest. Qed.

Lemma occurs_in_app_l (x a s : pystr) : occurs_in x s -> occurs_in x (a ++ s).
Proof. intros (u & v & ->). exists (a ++ u), v. by rewrite <- app_assoc. Qed.

Lemma occurs_in_app_r (x s b : pystr) : occurs_in x s -> occurs_in x (s ++ b).
Proof. intros (u & v & ->). exists u, (v ++ b). by rewrite <- !app_assoc. Qed.

Lemma occurs_in_cons (x s : pystr) (c : N) : occurs_in x s -> occurs_in x (c :: s).
Proof. intros (u & v & ->). by exists (c :: u), v. Qed.

Ltac find_text :=
  first [ apply occurs_in_refl
        | apply occurs_in_head
        | apply occurs_in_app_l; find_text
        | apply occurs_in_cons; find_text ].

Lemma block_line_raises (b : Block) (e : pystr) :
  block_line b = inl e <->
  e = attribute_error_get /\ block_type b = lit "callout" /\ block_icon b = IconNull.
Proof.
  unfold block_line.
  repeat (case_bool_decide as Hty;
          [split; [done | intros (_ & Hcallout & _); rewrite Hcallout in Hty;
                          vm_compute in Hty; discriminate]
          |clear Hty]).
  case_bool_decide as Hcallout.
  - unfold icon_emoji. destruct (block_icon b) as [| |[emoji|]]; split;
      try done; try (by intros (_ & _ & ?)).
    + by intros [= <-].
    + by intros (-> & _).
  - split; [by destruct (extract_rich_text _) | by intros (_ & ? & _)].
Qed.

Lemma block_line_keeps_text (b : Block) (line : option pystr) :
  block_type b <> lit "divider" ->
  block_line b = inr line ->
  match line with
  | Some l => occurs_in (extract_rich_text (block_rich_text b)) l
  | None => extract_rich_text (block_rich_text b) = []
  end.
Proof.
  intros Hdivider. unfold block_line.
  repeat (case_bool_decide; [try done; intros [= <-]; cbv beta iota; find_text|]).
  case_bool_decide.
  - destruct (icon_emoji (block_icon b)); [done|].
    intros [= <-]. cbv beta iota. find_text.
  - destruct (extract_rich_text (block_rich_text b)); intros [= <-]; cbv beta iota;
      [done | find_text].
Qed.

Lemma join_keeps_lines (sep line : pystr) (lines : list pystr) :
  line ∈ lines -> occurs_in line (join sep lines).
Proof.
  induction lines as [|l lines IH]; intros Hin; [by apply elem_of_nil in Hin|].
  destruct lines as [|l' lines].
  - apply list_elem_of_singleton in Hin as ->. apply occurs_in_refl.
  - cbn [join]. apply elem_of_cons in Hin as [->|Hin].
    + apply occurs_in_head.
    + by apply occurs_in_app_l, occurs_in_app_l, IH.
Qed.

Lemma block_lines_raises (blocks : list Block) (e : pystr) :
  block_lines blocks = inl e <-> exists b, b ∈ blocks /\ block_line b = inl e.
Proof.
  induction blocks as [|b blocks IH]; cbn [block_lines].
  - split; [done | intros (b & Hb & _); by apply elem_of_nil in Hb].
  - destruct (block_line b) as [e'|line] eqn:Hb.
    + split.
      * intros [= ->]. exists b. split; [by left | done].
      * intros (b' & _ & Hb'). apply block_line_raises in Hb as (-> & _).
        by apply block_line_raises in Hb' as (-> & _).
    + destruct (block_lines blocks) as [e'|lines].
      * split.
        -- intros Heq. apply IH in Heq as (b' & Hin & Hb'). exists b'.
           split; [by right | done].
        -- intros (b' & [->|Hin]%elem_of_cons & Hb'); [congruence|].
           apply IH. by exists b'.
      * split; [done|].
        intros (b' & [->|Hin]%elem_of_cons & Hb'); [congruence|].
        assert (Hnone : inr lines = (inl e : pystr + list pystr)); [|done].
        apply IH. by exists b'.
Qed.

Lemma block_lines_member (blocks : list Block) (lines : list pystr) (b : Block)
    (l : pystr) :
  block_lines blocks = inr lines -> b ∈ blocks -> block_line b = inr (Some l) ->
  l ∈ lines.
Proof.
  revert lines. induction blocks as [|b' blocks IH]; intros lines; cbn [block_lines].
  - intros _ Hin. by apply elem_of_nil in Hin.
  - destruct (block_line b') as [e|line] eqn:Hb'; [done|].
    destruct (block_lines blocks) as [e|rest]; [done|].
    intros [= <-] [->|Hin]%elem_of_cons Hb.
    + rewrite Hb in Hb'. injection Hb' as <-. apply elem_of_app. left. by left.
    + apply elem_of_app. right. by apply IH.
Qed.

(** X14. [_blocks_to_markdown] raises exactly when some block is a callout
    whose [icon] is [null], and then with the [AttributeError] of the [get]
    on [None]. When it returns, no text is lost: the text of every block
    that is not a divider, of a known type or not, occurs in the output. *)
Theorem blocks_to_markdown_keeps_text (blocks : list Block) :
  match blocks_to_markdown blocks with
  | inl e =>
      e = attribute_error_get /\
      exists b, b ∈ blocks /\ block_type b = lit "callout" /\ block_icon b = IconNull
  | inr out =>
      (forall b, b ∈ blocks -> block_type b = lit "callout" -> block_icon b <> IconNull) /\
      (forall b, b ∈ blocks -> block_type b <> lit "divider" ->
         occurs_in (extract_rich_text (block_rich_text b)) out)
  end.
Proof.
  unfold blocks_to_markdown.
  destruct (block_lines blocks) as [e|lines] eqn:Hlines.
  - apply block_lines_raises in Hlines as (b & Hin & Hb).
    apply block_line_raises in Hb as (-> & Hcallout & Hnull).
    split; [done|]. by exists b.
  - split.
    + intros b Hin Hcallout Hnull.
      assert (Hraises : block_lines blocks = inl attribute_error_get).
      { apply block_lines_raises. exists b. split; [done|].
        by apply block_line_raises. }
      congruence.
    + intros b Hin Hdivider.
      destruct (block_line b) as [e|line] eqn:Hb.
      { assert (Hraises : block_lines blocks = inl e).
        { apply block_lines_raises. by exists b. }
        congruence. }
      pose proof (block_line_keeps_text b line Hdivider Hb) as Hline.
      destruct line as [l|].
      * destruct Hline as (u & v & Hline).
        destruct (join_keeps_lines (nl ++ nl) l lines) as (u' & v' & Hjoin).
        { by apply (block_lines_member blocks lines b l). }
        rewrite Hjoin, Hline.
        exists (u' ++ u), (v ++ v'). by rewrite <- !app_assoc.
      * rewrite Hline. by exists [], (join (nl ++ nl) lines).
Qed.

Lemma split_bar_length (s : pystr) :
  forall cur, length (split_aux [124%N] s cur 0) = S (count_occ N.eq_dec s 124%N).
Proof.
  induction s as [|c s IH]; intros cur; [done|].
  cbn [split_aux count_occ]. destruct (N.eq_dec c 124%N) as [->|Hc].
  - rewrite bool_decide_eq_true_2 by by exists s. cbn. by rewrite IH.
  - rewrite bool_decide_eq_false_2; [apply IH|].
    intros [k Hk]. cbn in Hk. congruence.
Qed.

Section GitLogNone.

Context {T : Conversions}.

(** X15. [get_last_sync_commit] answers [None] exactly when [git log] fails,
    prints nothing but whitespace, or prints a line with fewer than two bars;
    on any other line it returns a tuple or lets the exception of
    [fromisoformat] escape. *)
Theorem last_sync_commit_none_iff (log_outcome : pystr + pystr) :
  get_last_sync_commit log_outcome = inr None <->
  match log_outcome with
  | inl _ => True
  | inr stdout =>
      strip stdout = [] \/ (count_occ N.eq_dec (strip stdout) 124%N < 2)%nat
  end.
Proof.
  unfold get_last_sync_commit. destruct log_outcome as [e|stdout]; [done|].
  destruct (strip stdout) as [|c line] eqn:Hline; [split; auto|].
  change (lit "|") with [124%N]. unfold split. rewrite split_bar_length.
  destruct (Nat.ltb_spec (S (count_occ N.eq_dec (c :: line) 124%N)) 3) as [Hlt|Hge].
  - split; [|done]. intros _. right. lia.
  - destruct (fromisoformat _); (split; [done|]); intros [?|?]; [done | lia | done | lia].
Qed.

End GitLogNone.

(** ** Two passes in succession *)

Lemma max_time_member (l : list Z) (t : Z) :
  t ∈ l -> exists m, max_time l = Some m /\ t <= m.
Proof.
  induction l as [|x l IH]; intros Hin; [by apply elem_of_nil in Hin|].
  apply elem_of_cons in Hin as [->|Hin]; simpl.
  - destruct (max_time l) as [m|]; eexists; (split; [reflexivity | lia]).
  - destruct (IH Hin) as (m & -> & Hle). eexists. split; [reflexivity | lia].
Qed.

(** Once the log holds a [success] entry, [get_last_sync_time] returns a
    text. *)
Lemma last_success_text (st : State) (entry : SyncLogEntry) :
  entry ∈ db_sync_log st ->
  log_status entry = lit "success" ->
  exists t, get_last_sync_time st = Some t.
Proof.
  intros Hin Hstatus. unfold get_last_sync_time.
  destruct (max_time_member
              (log_sync_time <$> filter (fun e => log_status e = lit "success")
                                        (db_sync_log st))
              (log_sync_time entry)) as (m & -> & _); [|by eexists].
  apply list_elem_of_fmap. exists entry. split; [done|].
  by apply list_elem_of_filter.
Qed.

(** With a text for the cutoff, the listing raises before any request and
    the run ends in the handler of [sync_now]. *)
Lemma run_with_cutoff_aborts (push : bool) (w : World) (st : State) (t : TimestampText) :
  get_last_sync_time st = Some t ->
  sync_now push w st = sync_aborted st attribute_error_isoformat.
Proof.
  intros Hlast. unfold sync_now, pull_from_notion, get_database_pages.
  by rewrite Hlast.
Qed.

(** X19. After a run that succeeded, the next run, whatever the remote
    holds, aborts at the listing: [get_last_sync_time] returns the text of
    the last successful sync, and [get_database_pages] raises
    [AttributeError] on it. The result is failed with zero synced, zero
    skipped and that one error, nothing is written or committed, the log
    gets an [error] entry, and the cutoff stays, so every later run does the
    same. *)
Theorem run_after_success_aborts (push1 push2 : bool) (w1 w2 : World) (st : State) :
  success (sync_now push1 w1 st).2 = true ->
  success (sync_now push2 w2 (sync_now push1 w1 st).1).2 = false /\
  pages_synced (sync_now push2 w2 (sync_now push1 w1 st).1).2 = 0%nat /\
  pages_skipped (sync_now push2 w2 (sync_now push1 w1 st).1).2 = 0%nat /\
  errors (sync_now push2 w2 (sync_now push1 w1 st).1).2 = [attribute_error_isoformat] /\
  commit_hash (sync_now push2 w2 (sync_now push1 w1 st).1).2 = None /\
  db_pages (sync_now push2 w2 (sync_now push1 w1 st).1).1
    = db_pages (sync_now push1 w1 st).1 /\
  pages_dir (sync_now push2 w2 (sync_now push1 w1 st).1).1
    = pages_dir (sync_now push1 w1 st).1 /\
  git_commits (sync_now push2 w2 (sync_now push1 w1 st).1).1
    = git_commits (sync_now push1 w1 st).1 /\
  (exists entry,
     db_sync_log (sync_now push2 w2 (sync_now push1 w1 st).1).1
       = db_sync_log (sync_now push1 w1 st).1 ++ [entry] /\
     log_status entry = lit "error" /\
     log_pages_synced entry = 0%nat) /\
  get_last_sync_time (sync_now push2 w2 (sync_now push1 w1 st).1).1
    = get_last_sync_time (sync_now push1 w1 st).1.
Proof.
  intros Hsuccess.
  destruct (sync_now_log push1 w1 st) as (entry & Hlog & _ & _ & Hstatus & _).
  destruct (last_success_text (sync_now push1 w1 st).1 entry) as [t Hlast].
  { rewrite Hlog. apply elem_of_app. right. by left. }
  { by apply Hstatus. }
  rewrite (run_with_cutoff_aborts push2 w2 _ t Hlast).
  destruct (sync_aborted_log (sync_now push1 w1 st).1 attribute_error_isoformat)
    as [Hlog2 Hresult].
  rewrite Hresult. cbn [success pages_synced pages_skipped errors commit_hash].
  repeat (split; [done|]).
  split; [by eexists|].
  rewrite (last_sync_time_snoc _ _ _ Hlog2). cbn [log_status].
  rewrite bool_decide_eq_false_2; [done|].
  intros Heq. by destruct status_literals as [_ []].
Qed.

End Properties.

(** ** The statements on explicit runs *)

Lemma ascii_lower_isalnum (c : N) :
  (97 <= c <= 122)%N -> isalnum (Library := Sample.lib) c = true.
Proof.
  intros [Hlo Hhi]. cbn. unfold Sample.ascii_isalnum, Sample.between.
  apply orb_true_intro. right.
  apply andb_true_intro. split; by apply N.leb_le.
Qed.

Lemma sample_clock_monotone (i j : nat) :
  (i <= j)%nat -> clock (Library := Sample.lib) i <= clock (Library := Sample.lib) j.
Proof. intros Hij. cbn. unfold Sample.clock. lia. Qed.

(** The first run of the scenario: the remote holds one page, [Notes] with
    identifier [aaa111], and the store is empty. The run syncs one page and
    skips none, writes [Notes_aaa111.md], stores a record with status
    [synced], and logs a [success] entry with one page synced. *)
Example first_run_scenario :
  pages_synced (Sample.run true (Sample.calm [Sample.notes]) Sample.empty).2 = 1%nat /\
  pages_skipped (Sample.run true (Sample.calm [Sample.notes]) Sample.empty).2 = 0%nat /\
  dom (pages_dir (Sample.run true (Sample.calm [Sample.notes]) Sample.empty).1)
    = {[ lit "Notes_aaa111.md" ]} /\
  status <$> db_pages (Sample.run true (Sample.calm [Sample.notes]) Sample.empty).1
               !! lit "aaa111" = Some (lit "synced") /\
  (fun e => (log_pages_synced e, log_status e))
    <$> db_sync_log (Sample.run true (Sample.calm [Sample.notes]) Sample.empty).1
    = [(1%nat, lit "success")].
Proof. repeat split; vm_compute; reflexivity. Qed.

(** C2, refuted as stated: the listing request of this run fails, and the
    run appends a [partial] entry, not an [error] one, and makes a commit. *)
Lemma listing_failure_logged_partial :
  get_database_pages (Sample.offline [Sample.notes]) (get_last_sync_time Sample.empty)
    = inl (ClientError (lit "Notion API error: 503")) /\
  log_status <$> db_sync_log (Sample.run true (Sample.offline [Sample.notes]) Sample.empty).1
    = [lit "partial"] /\
  lit "partial" <> lit "error" /\
  commit_id <$> git_commits (Sample.run true (Sample.offline [Sample.notes]) Sample.empty).1
    = [lit "c0ffee11"] /\
  git_commits Sample.empty = [].
Proof.
  repeat split; try (vm_compute; reflexivity).
  intros Heq. vm_compute in Heq. discriminate.
Qed.

Lemma listing_failure_run_witness :
  get_database_pages (Sample.offline [Sample.notes]) (get_last_sync_time Sample.empty)
    = inl (ClientError (lit "Notion API error: 503")) /\
  success (Sample.run true (Sample.offline [Sample.notes]) Sample.empty).2 = false /\
  pages_synced (Sample.run true (Sample.offline [Sample.notes]) Sample.empty).2 = 0%nat /\
  pages_skipped (Sample.run true (Sample.offline [Sample.notes]) Sample.empty).2 = 0%nat.
Proof.
  assert (Hfault : get_database_pages (Sample.offline [Sample.notes])
                                      (get_last_sync_time Sample.empty)
                   = inl (ClientError (lit "Notion API error: 503")))
    by reflexivity.
  split; [exact Hfault|].
  destruct (listing_failure_run (L := Sample.lib) true (Sample.offline [Sample.notes])
              Sample.empty _ Hfault) as (_ & _ & Hsuccess & Hsynced & Hskipped & _).
  exact (conj Hsuccess (conj Hsynced Hskipped)).
Defined.



(** C1, on a page the program has synced itself. The first run stores the
    record of page [aaa111] with the edit time the API gave, which is
    zone-aware. The dirty check of the same page with the same content should
    answer false and with other content true; it raises the [ValueError] of
    the converter in both cases, because the stored [last_edited] cannot be
    read back. When the edit time has a fraction of a second the record is
    read back, without the offset, and the check raises [TypeError] in the
    comparison of the zone-aware edit time with the zone-less
    [last_synced]. *)
Theorem needs_sync_raises_on_synced_page :
  db_pages (Sample.run true (Sample.calm [Sample.notes]) Sample.empty).1 !! lit "aaa111"
    = Some (mkPageRecord (lit "aaa111") (lit "Notes") None (lit "hello")
                         (Sample.utc 10) (Sample.zoneless 100) (lit "synced")) /\
  compute_hash (Library := Sample.lib) (lit "hello") = lit "hello" /\
  needs_sync (L := Sample.lib) (Sample.run true (Sample.calm [Sample.notes]) Sample.empty).1
             (lit "aaa111") (Sample.utc 10) (lit "hello")
    = inl (lit "invalid literal for int() with base 10: b'10+00'") /\
  needs_sync (L := Sample.lib) (Sample.run true (Sample.calm [Sample.notes]) Sample.empty).1
             (lit "aaa111") (Sample.utc 10) (lit "changed")
    = inl (lit "invalid literal for int() with base 10: b'10+00'") /\
  needs_sync (L := Sample.lib) (Sample.run true (Sample.calm [Sample.notes_ms]) Sample.empty).1
             (lit "aaa111") (page_last_edited Sample.notes_ms) (lit "hello")
    = inl (lit "can't compare offset-naive and offset-aware datetimes").
Proof. repeat split; vm_compute; reflexivity. Qed.

(** C4, on two runs in succession. The first run syncs the one page of the
    remote and succeeds. The second run, with the remote unchanged, should
    sync nothing and skip that page; it aborts at the listing with
    [AttributeError], so it is failed, skips nothing, and is logged with
    status [error]. *)
Theorem second_pass_aborts :
  success (Sample.run true (Sample.calm [Sample.notes]) Sample.empty).2 = true /\
  pages_synced (Sample.run true (Sample.calm [Sample.notes]) Sample.empty).2 = 1%nat /\
  get_last_sync_time (Sample.run true (Sample.calm [Sample.notes]) Sample.empty).1
    = Some (mkTimestampText 101) /\
  success
    (Sample.run true (Sample.calm [Sample.notes])
       (Sample.run true (Sample.calm [Sample.notes]) Sample.empty).1).2 = false /\
  pages_synced
    (Sample.run true (Sample.calm [Sample.notes])
       (Sample.run true (Sample.calm [Sample.notes]) Sample.empty).1).2 = 0%nat /\
  pages_skipped
    (Sample.run true (Sample.calm [Sample.notes])
       (Sample.run true (Sample.calm [Sample.notes]) Sample.empty).1).2 = 0%nat /\
  errors
    (Sample.run true (Sample.calm [Sample.notes])
       (Sample.run true (Sample.calm [Sample.notes]) Sample.empty).1).2
    = [lit "'str' object has no attribute 'isoformat'"] /\
  log_status <$>
    db_sync_log
      (Sample.run true (Sample.calm [Sample.notes])
         (Sample.run true (Sample.calm [Sample.notes]) Sample.empty).1).1
    = [lit "success"; lit "error"].
Proof. repeat split; vm_compute; reflexivity. Qed.

Lemma run_after_success_aborts_witness :
  success (Sample.run true (Sample.calm [Sample.notes]) Sample.empty).2 = true /\
  success
    (Sample.run true (Sample.calm [Sample.notes; Sample.todo])
       (Sample.run true (Sample.calm [Sample.notes]) Sample.empty).1).2 = false /\
  pages_synced
    (Sample.run true (Sample.calm [Sample.notes; Sample.todo])
       (Sample.run true (Sample.calm [Sample.notes]) Sample.empty).1).2 = 0%nat /\
  pages_skipped
    (Sample.run true (Sample.calm [Sample.notes; Sample.todo])
       (Sample.run true (Sample.calm [Sample.notes]) Sample.empty).1).2 = 0%nat /\
  errors
    (Sample.run true (Sample.calm [Sample.notes; Sample.todo])
       (Sample.run true (Sample.calm [Sample.notes]) Sample.empty).1).2
    = [attribute_error_isoformat].
Proof.
  split; [vm_compute; reflexivity|].
  destruct (run_after_success_aborts (L := Sample.lib) true true
              (Sample.calm [Sample.notes]) (Sample.calm [Sample.notes; Sample.todo])
              Sample.empty)
    as (Hsuccess & Hsynced & Hskipped & Herrors & _).
  - vm_compute. reflexivity.
  - exact (conj Hsuccess (conj Hsynced (conj Hskipped Herrors))).
Defined.

(** C5, on two pages: one title, different identifiers with the same first
    eight characters, one file name; after a run that syncs both, the pages
    directory holds a single file, with the text of the page written last. *)
Theorem filename_collision :
  page_title Sample.twin_a = page_title Sample.twin_b /\
  page_id Sample.twin_a <> page_id Sample.twin_b /\
  filename (L := Sample.lib) Sample.twin_a = filename (L := Sample.lib) Sample.twin_b /\
  pages_synced (Sample.run true (Sample.calm [Sample.twin_a; Sample.twin_b]) Sample.empty).2
    = 2%nat /\
  size (pages_dir (Sample.run true (Sample.calm [Sample.twin_a; Sample.twin_b]) Sample.empty).1)
    = 1%nat /\
  pages_dir (Sample.run true (Sample.calm [Sample.twin_a; Sample.twin_b]) Sample.empty).1
    !! lit "Notes_12345678.md"
    = Some (frontmatter (L := Sample.lib) Sample.twin_b ++ lit "hello").
Proof.
  repeat split; try (vm_compute; reflexivity).
  intros Heq. vm_compute in Heq. discriminate.
Qed.

Lemma push_failure_keeps_commit_witness :
  has_changes (Sample.push_rejected [Sample.notes]) = true /\
  commit_outcome (Sample.push_rejected [Sample.notes]) = inr (lit "c0ffee11") /\
  push_outcome (Sample.push_rejected [Sample.notes])
    = Some (lit "Git command failed: git push origin") /\
  commit_hash (Sample.run true (Sample.push_rejected [Sample.notes]) Sample.empty).2
    = Some (lit "c0ffee11") /\
  errors (Sample.run true (Sample.push_rejected [Sample.notes]) Sample.empty).2
    = [lit "Push failed: " ++ lit "Git command failed: git push origin"] /\
  List.filter push_related
      (errors (Sample.run true (Sample.push_rejected [Sample.notes]) Sample.empty).2)
    = [lit "Push failed: " ++ lit "Git command failed: git push origin"] /\
  git_commits (Sample.run true (Sample.push_rejected [Sample.notes]) Sample.empty).1
    = [mkCommit (lit "c0ffee11") 1 (lit "pull")].
Proof.
  destruct (push_failure_keeps_commit (L := Sample.lib)
              (Sample.push_rejected [Sample.notes]) Sample.empty
              (pull_from_notion (L := Sample.lib) (Sample.push_rejected [Sample.notes])
                                Sample.empty).1
              (mkPullResult 1 0 []) (lit "c0ffee11")
              (lit "Git command failed: git push origin"))
    as (Hhash & Herrors & Hpush & Hgit).
  - vm_compute. reflexivity.
  - reflexivity.
  - reflexivity.
  - reflexivity.
  - exact (conj eq_refl (conj eq_refl (conj eq_refl
             (conj Hhash (conj Herrors (conj Hpush Hgit)))))).
Defined.

(** C7, refuted as stated: this run completes the loop with one page synced,
    then [git commit] raises, and the entry it appends has status [error] and
    [pages_synced] 0, while the claim asks for [partial] and 1. *)
Lemma commit_failure_logged_as_error :
  get_database_pages (Sample.commit_broken [Sample.notes]) (get_last_sync_time Sample.empty)
    = inr [Sample.notes] /\
  synced (pull_loop (L := Sample.lib) (Sample.commit_broken [Sample.notes]) [Sample.notes]
                    (Sample.empty, mkPullResult 0 0 [])).2 = 1%nat /\
  (fun e => (log_status e, log_pages_synced e))
    <$> db_sync_log (Sample.run true (Sample.commit_broken [Sample.notes]) Sample.empty).1
    = [(lit "error", 0%nat)] /\
  errors (Sample.run true (Sample.commit_broken [Sample.notes]) Sample.empty).2
    = [lit "Git command failed: git commit"] /\
  lit "error" <> lit "partial".
Proof.
  repeat split; try (vm_compute; reflexivity).
  intros Heq. vm_compute in Heq. discriminate.
Qed.

Lemma run_logged_once_witness :
  get_database_pages (Sample.calm [Sample.notes]) (get_last_sync_time Sample.empty)
    = inr [Sample.notes] /\
  exists entry,
    db_sync_log (Sample.run true (Sample.calm [Sample.notes]) Sample.empty).1
      = db_sync_log Sample.empty ++ [entry] /\
    log_status entry =
      (if bool_decide (errors (Sample.run true (Sample.calm [Sample.notes]) Sample.empty).2 = [])
       then lit "success" else lit "partial") /\
    log_pages_synced entry =
      synced (pull_loop (L := Sample.lib) (Sample.calm [Sample.notes]) [Sample.notes]
                        (Sample.empty, mkPullResult 0 0 [])).2 /\
    pages_synced (Sample.run true (Sample.calm [Sample.notes]) Sample.empty).2
      = log_pages_synced entry /\
    (success (Sample.run true (Sample.calm [Sample.notes]) Sample.empty).2 = true <->
     errors (Sample.run true (Sample.calm [Sample.notes]) Sample.empty).2 = []).
Proof.
  split; [vm_compute; reflexivity|].
  apply (run_logged_once (L := Sample.lib) true (Sample.calm [Sample.notes]) Sample.empty
                         [Sample.notes]).
  - vm_compute. reflexivity.
  - intros _. exists (lit "c0ffee11"). reflexivity.
Defined.

Lemma written_file_shape_witness :
  safe_title (L := Sample.lib) (page_title Sample.greeting) = lit "Hello World" /\
  Forall (fun c => allowed (L := Sample.lib) c = true)
         (safe_title (L := Sample.lib) (page_title Sample.greeting)) /\
  (length (safe_title (L := Sample.lib) (page_title Sample.greeting)) <= 50)%nat /\
  (write_fault (Sample.calm []) (filename (L := Sample.lib) Sample.greeting) = None ->
   exists st',
     write_page_file (L := Sample.lib) (Sample.calm []) Sample.empty Sample.greeting
                     (lit "hello") = inr st' /\
     filename (L := Sample.lib) Sample.greeting =
       safe_title (L := Sample.lib) (page_title Sample.greeting)
         ++ lit "_" ++ take 8 (page_id Sample.greeting) ++ lit ".md" /\
     pages_dir st' !! filename (L := Sample.lib) Sample.greeting =
       Some (join nl (header_lines (L := Sample.lib) Sample.greeting)
               ++ nl ++ nl ++ lit "hello")).
Proof.
  split; [vm_compute; reflexivity|].
  destruct (written_file_shape (L := Sample.lib) ascii_lower_isalnum (Sample.calm [])
              Sample.empty Sample.greeting (lit "hello"))
    as (Hallowed & Hlength & _ & Hfile).
  exact (conj Hallowed (conj Hlength Hfile)).
Defined.

Lemma every_candidate_counted_witness :
  get_database_pages (Sample.flaky [Sample.notes; Sample.todo])
                     (get_last_sync_time Sample.seen_notes)
    = inr [Sample.notes; Sample.todo] /\
  exists st' r,
    pull_from_notion (L := Sample.lib) (Sample.flaky [Sample.notes; Sample.todo])
                     Sample.seen_notes = (st', inr r) /\
    (synced r + skipped r + length (pull_errors r))%nat
      = length [Sample.notes; Sample.todo].
Proof.
  split; [vm_compute; reflexivity|].
  apply (every_candidate_counted (L := Sample.lib)).
  vm_compute. reflexivity.
Defined.

Lemma skipped_page_frame_witness :
  fetch_content (Sample.calm [Sample.notes_local]) (page_id Sample.notes_local)
    = inr (lit "hello") /\
  needs_sync (L := Sample.lib) Sample.seen_notes (page_id Sample.notes_local)
             (page_last_edited Sample.notes_local)
             (compute_hash (Library := Sample.lib) (lit "hello")) = inr false /\
  sync_page (L := Sample.lib) (Sample.calm [Sample.notes_local])
            (Sample.seen_notes, mkPullResult 0 0 []) Sample.notes_local
    = (Sample.seen_notes, mkPullResult 0 1 []).
Proof.
  assert (Hneeds :
    needs_sync (L := Sample.lib) Sample.seen_notes (page_id Sample.notes_local)
               (page_last_edited Sample.notes_local)
               (compute_hash (Library := Sample.lib) (lit "hello")) = inr false)
    by (vm_compute; reflexivity).
  split; [reflexivity|]. split; [exact Hneeds|].
  exact (skipped_page_frame (L := Sample.lib) (Sample.calm [Sample.notes_local])
           Sample.seen_notes (mkPullResult 0 0 []) Sample.notes_local (lit "hello")
           eq_refl Hneeds).
Defined.

Lemma synced_page_recorded_witness :
  synced (sync_page (L := Sample.lib) (Sample.calm [Sample.notes])
                    (Sample.empty, mkPullResult 0 0 []) Sample.notes).2 = 1%nat /\
  exists content,
    fetch_content (Sample.calm [Sample.notes]) (page_id Sample.notes) = inr content /\
    db_pages (sync_page (L := Sample.lib) (Sample.calm [Sample.notes])
                        (Sample.empty, mkPullResult 0 0 []) Sample.notes).1
      !! page_id Sample.notes =
      Some (mkPageRecord (lit "aaa111") (lit "Notes") None
                         (compute_hash (Library := Sample.lib) content) (Sample.utc 10)
                         (Sample.zoneless 100) (lit "synced")) /\
    pages_dir (sync_page (L := Sample.lib) (Sample.calm [Sample.notes])
                         (Sample.empty, mkPullResult 0 0 []) Sample.notes).1
      !! filename (L := Sample.lib) Sample.notes =
      Some (frontmatter (L := Sample.lib) Sample.notes ++ content) /\
    needs_sync (L := Sample.lib)
               (sync_page (L := Sample.lib) (Sample.calm [Sample.notes])
                          (Sample.empty, mkPullResult 0 0 []) Sample.notes).1
               (page_id Sample.notes) (page_last_edited Sample.notes)
               (compute_hash (Library := Sample.lib) content) =
      inl (converter_error (Library := Sample.lib) (Sample.utc 10)).
Proof.
  split; [vm_compute; reflexivity|].
  apply (synced_page_recorded (L := Sample.lib) (Sample.calm [Sample.notes]) Sample.empty
           (mkPullResult 0 0 []) Sample.notes).
  vm_compute. reflexivity.
Defined.

Lemma unsynced_loop_keeps_records_witness :
  synced (pull_loop (L := Sample.lib) (Sample.flaky [Sample.notes; Sample.todo])
                    [Sample.notes; Sample.todo]
                    (Sample.seen_notes, mkPullResult 0 0 [])).2 = 0%nat /\
  db_pages (pull_loop (L := Sample.lib) (Sample.flaky [Sample.notes; Sample.todo])
                      [Sample.notes; Sample.todo]
                      (Sample.seen_notes, mkPullResult 0 0 [])).1
    = db_pages Sample.seen_notes.
Proof.
  assert (Hsame :
    synced (pull_loop (L := Sample.lib) (Sample.flaky [Sample.notes; Sample.todo])
                      [Sample.notes; Sample.todo]
                      (Sample.seen_notes, mkPullResult 0 0 [])).2 = 0%nat)
    by (vm_compute; reflexivity).
  split; [exact Hsame|].
  exact (unsynced_loop_keeps_records (L := Sample.lib)
           (Sample.flaky [Sample.notes; Sample.todo]) [Sample.notes; Sample.todo]
           Sample.seen_notes (mkPullResult 0 0 []) Hsame).
Defined.

Lemma sync_commit_count_not_read_back_witness :
  commit_message (T := Sample.conv) (lit "2024-01-01T10:00:00") 5 (lit "pull") None
    = lit "Sync 2024-01-01T10:00:00 | 5 pages | pull" /\
  get_last_sync_commit (L := Sample.lib) (T := Sample.conv) (inr Sample.log_line)
    = inr (Some (lit "c0ffee11", 1704103200, 0)).
Proof.
  split; [vm_compute; reflexivity|].
  apply (sync_commit_count_not_read_back (L := Sample.lib) (T := Sample.conv)
           Sample.log_line (lit "c0ffee11") (lit "2024-01-01 10:00:00 +0000")
           (lit "2024-01-01T10:00:00") 5 (lit "pull") None 1704103200).
  - vm_compute. reflexivity.
  - apply (bool_decide_unpack _). by vm_compute.
  - apply (bool_decide_unpack _). by vm_compute.
  - apply (bool_decide_unpack _). by vm_compute.
  - apply (bool_decide_unpack _). by vm_compute.
  - reflexivity.
Defined.

(** A heading and an unknown block with text give two lines; a callout
    whose [icon] is [null] makes the conversion raise. *)
Example blocks_to_markdown_scenario :
  blocks_to_markdown [Sample.heading; Sample.embed]
    = inr (lit "# Plan B" ++ nl ++ nl ++ lit "see the link") /\
  blocks_to_markdown [Sample.heading; Sample.plain_callout]
    = inl (lit "'NoneType' object has no attribute 'get'").
Proof. split; vm_compute; reflexivity. Qed.

Lemma pull_loop_idempotent_witness :
  pull_loop (L := Sample.lib) (Sample.calm [Sample.notes_local; Sample.todo_local])
            [Sample.notes_local; Sample.todo_local]
            ((pull_loop (L := Sample.lib) (Sample.calm [Sample.notes_local; Sample.todo_local])
                        [Sample.notes_local; Sample.todo_local]
                        (Sample.empty, mkPullResult 0 0 [])).1,
             mkPullResult 0 0 [])
  = ((pull_loop (L := Sample.lib) (Sample.calm [Sample.notes_local; Sample.todo_local])
                [Sample.notes_local; Sample.todo_local]
                (Sample.empty, mkPullResult 0 0 [])).1,
     mkPullResult 0 2 []).
Proof.
  apply (pull_loop_idempotent (L := Sample.lib) sample_clock_monotone
           (Sample.calm [Sample.notes_local; Sample.todo_local])
           [Sample.notes_local; Sample.todo_local]
           Sample.empty (mkPullResult 0 0 []) (mkPullResult 0 0 [])).
  - apply (bool_decide_unpack _). by vm_compute.
  - intros q [->|[->|Hq]%elem_of_cons]%elem_of_cons;
      [reflexivity | reflexivity | by apply elem_of_nil in Hq].
  - intros q [->|[->|Hq]%elem_of_cons]%elem_of_cons.
    + vm_compute. discriminate.
    + vm_compute. discriminate.
    + by apply elem_of_nil in Hq.
  - vm_compute. reflexivity.
Defined.

Lemma filename_distinct_prefix_witness :
  page_title Sample.notes = page_title Sample.notes_copy /\
  filename (L := Sample.lib) Sample.notes <> filename (L := Sample.lib) Sample.notes_copy.
Proof.
  split; [reflexivity|].
  apply (filename_distinct_prefix (L := Sample.lib) Sample.notes Sample.notes_copy).
  - reflexivity.
  - intros Heq. vm_compute in Heq. discriminate.
Defined.
